(** * CHAI chatbot relay: a shallow embedding of the client, the chat handler
      and the admission controller, with the properties of the specification.

    Source files embedded here:
    - [config.py]       the [Config] class,
    - [chai_client.py]  [ChatMessage], [ChatRequest], [ChaiAPIClient],
    - [app.py]          the [/api/chat] handler [chat].

    Python is dynamically typed: the values that flow through the handler
    come from JSON documents, so they are modelled by one type [pyval] of
    Python values, and the code's [or], [in], [.get], [.strip] are the
    operations on that type, raising where Python raises. *)

From Stdlib Require Import Floats Ascii String Sorted.
From stdpp Require Import gmap strings list pretty.

Set Warnings "-register-all".
Set Default Proof Using "Type".

Local Open Scope string_scope.
Local Open Scope list_scope.
Local Open Scope Z_scope.

(* ===================================================================== *)
(** * Python values *)
(* ===================================================================== *)

(** A [dict] keeps its insertion order, so it is an association list whose
    keys are pairwise distinct; [PDict] built by this file's code always is.
    Characters are the code points 0..255. *)
Inductive pyval :=
  | PNone
  | PBool (b : bool)
  | PInt (z : Z)
  | PFloat (f : float)
  | PStr (s : string)
  | PList (l : list pyval)
  | PDict (d : list (string * pyval)).

Abbreviation pydict := (list (string * pyval)).

(** [bool(v)]: the falsy values are [None], [False], zero, and the empty
    string, list and dict. *)
Definition truthy (v : pyval) : bool :=
  match v with
  | PNone => false
  | PBool b => b
  | PInt z => negb (z =? 0)
  | PFloat f => negb (PrimFloat.eqb f 0%float)
  | PStr s => negb (String.eqb s "")
  | PList l => match l with [] => false | _ => true end
  | PDict d => match d with [] => false | _ => true end
  end.

(** [a or b] *)
Definition py_or (a b : pyval) : pyval := if truthy a then a else b.

(** [d.get(k)] on an association list: [None] when the key is absent. *)
Fixpoint dict_lookup (k : string) (d : pydict) : option pyval :=
  match d with
  | [] => None
  | (k', v) :: d' => if String.eqb k k' then Some v else dict_lookup k d'
  end.

Definition dict_keys (d : pydict) : list string := d.*1.

(** [d.get(k, default)] *)
Definition dict_get (k : string) (default : pyval) (d : pydict) : pyval :=
  match dict_lookup k d with
  | Some v => v
  | None => default
  end.

(* --------------------------------------------------------------------- *)
(** ** [str.strip] *)

(** [str.isspace] on one character, for the code points below 256:
    TAB..CR, FS..US, SPACE, NEL and NBSP. *)
Definition isspace (c : ascii) : bool :=
  let n := Z.of_N (N_of_ascii c) in
  ((9 <=? n) && (n <=? 13)) || ((28 <=? n) && (n <=? 32))
  || (n =? 133) || (n =? 160).

Fixpoint lstrip (s : string) : string :=
  match s with
  | EmptyString => EmptyString
  | String c s' => if isspace c then lstrip s' else s
  end.

Fixpoint rstrip (s : string) : string :=
  match s with
  | EmptyString => EmptyString
  | String c s' =>
      match rstrip s' with
      | EmptyString => if isspace c then EmptyString else String c EmptyString
      | r => String c r
      end
  end.

Definition strip (s : string) : string := rstrip (lstrip s).

(** [sub in s] for two strings. *)
Fixpoint is_prefix (p s : string) : bool :=
  match p, s with
  | EmptyString, _ => true
  | String a p', String b s' => Ascii.eqb a b && is_prefix p' s'
  | String _ _, EmptyString => false
  end.

Fixpoint str_contains (sub s : string) : bool :=
  is_prefix sub s
  || match s with
     | EmptyString => false
     | String _ s' => str_contains sub s'
     end.

(* ===================================================================== *)
(** * Exceptions *)
(* ===================================================================== *)

(** The classes of [Exception] that the code meets. [ConnectTimeout]
    inherits from both [ConnectionError] and [Timeout]; the other classes
    of [requests.exceptions] that are neither a timeout nor a connection
    error ([TooManyRedirects], [InvalidURL], ...) are [OtherRequestException];
    [JSONDecodeError] is [json.JSONDecodeError], which [response.json()]
    raises; [OtherException] is any other subclass of [Exception]. What is
    raised outside [Exception] ([KeyboardInterrupt], [SystemExit]) stops
    the process and is not a value of this type. *)
Inductive exc_class :=
  | ReadTimeout
  | ConnectTimeout
  | ConnectionError
  | RetryError
  | OtherRequestException
  | JSONDecodeError
  | KeyError
  | TypeError
  | AttributeError
  | OtherException.

(** An exception value: its class and [str(e)]. *)
Record exc := Exc { exc_type : exc_class; exc_str : string }.

(** [isinstance(e, requests.exceptions.Timeout)] *)
Definition is_Timeout (c : exc_class) : bool :=
  match c with ReadTimeout | ConnectTimeout => true | _ => false end.

(** [isinstance(e, requests.exceptions.ConnectionError)] *)
Definition is_ConnectionError (c : exc_class) : bool :=
  match c with ConnectionError | ConnectTimeout => true | _ => false end.

(** [isinstance(e, requests.exceptions.RequestException)] *)
Definition is_RequestException (c : exc_class) : bool :=
  match c with
  | ReadTimeout | ConnectTimeout | ConnectionError | RetryError
  | OtherRequestException => true
  | _ => false
  end.

(** [isinstance(e, json.JSONDecodeError)] *)
Definition is_JSONDecodeError (c : exc_class) : bool :=
  match c with JSONDecodeError => true | _ => false end.

(** The outcome of evaluating an expression: a value, or a raised
    exception. *)
Inductive result (A : Type) :=
  | Return (a : A)
  | Raise (e : exc).
Arguments Return {A} a.
Arguments Raise {A} e.

(** [type(v).__name__] *)
Definition py_type_name (v : pyval) : string :=
  match v with
  | PNone => "NoneType"
  | PBool _ => "bool"
  | PInt _ => "int"
  | PFloat _ => "float"
  | PStr _ => "str"
  | PList _ => "list"
  | PDict _ => "dict"
  end.

(** [v[k]] for a string key [k]. Only a dict can be subscripted by a
    string; on a dict the missing key raises [KeyError]. *)
Definition py_getitem (v : pyval) (k : string) : result pyval :=
  match v with
  | PDict d =>
      match dict_lookup k d with
      | Some x => Return x
      | None => Raise (Exc KeyError ("'" +:+ k +:+ "'"))
      end
  | PList _ =>
      Raise (Exc TypeError "list indices must be integers or slices, not str")
  | PStr _ => Raise (Exc TypeError "string indices must be integers")
  | _ => Raise (Exc TypeError
                  ("'" +:+ py_type_name v +:+ "' object is not subscriptable"))
  end.

(** [k in v] for a string [k]: a key test on a dict, an element test on a
    list, a substring test on a string; a [TypeError] on a value that is
    not iterable. *)
Definition py_contains (k : string) (v : pyval) : result bool :=
  match v with
  | PDict d =>
      Return (match dict_lookup k d with Some _ => true | None => false end)
  | PList l =>
      Return (existsb (fun x => match x with
                                | PStr s => String.eqb s k
                                | _ => false
                                end) l)
  | PStr s => Return (str_contains k s)
  | _ => Raise (Exc TypeError
                  ("argument of type '" +:+ py_type_name v
                   +:+ "' is not iterable"))
  end.

(** [getattr(v, name)] failing. *)
Definition no_attribute (v : pyval) (name : string) : exc :=
  Exc AttributeError
      ("'" +:+ py_type_name v +:+ "' object has no attribute '" +:+ name +:+ "'").

(** [v.get(k, default)]: only a dict has the method. *)
Definition py_get (v : pyval) (k : string) (default : pyval) : result pyval :=
  match v with
  | PDict d => Return (dict_get k default d)
  | _ => Raise (no_attribute v "get")
  end.

(** [v.strip()]: only a string has the method. *)
Definition py_strip (v : pyval) : result pyval :=
  match v with
  | PStr s => Return (PStr (strip s))
  | _ => Raise (no_attribute v "strip")
  end.

(** [str(v)] inside an f-string, for the values formatted by the code. *)
Definition py_str_int (z : Z) : string := pretty z.

(* ===================================================================== *)
(** * [config.py] *)
(* ===================================================================== *)

Module Config.

(** [os.environ] *)
Abbreviation environ := (gmap string string).

(** [os.environ.get(k, default)] *)
Definition environ_get (env : environ) (k default : string) : string :=
  match env !! k with
  | Some v => v
  | None => default
  end.

(** The class attributes of [Config], evaluated when the module is
    loaded in the process environment [env]. [DEBUG] and [PORT], which
    are read from the environment too, are not used by the client or the
    handler and are left out. *)
Record t := {
  CHAI_API_URL : string;
  CHAI_API_TOKEN : string;
  SECRET_KEY : string;
  HOST : string;
  DEFAULT_BOT_NAME : string;
  DEFAULT_USER_NAME : string;
  SAFETY_PROMPT : string;
  REQUEST_TIMEOUT : Z;
  MAX_RETRIES : Z
}.

Definition load (env : environ) : t := {|
  CHAI_API_URL :=
    "http://guanaco-submitter.guanaco-backend.k2.chaiverse.com/endpoints/onsite/chat";
  CHAI_API_TOKEN := "CR_14d43f2bf78b4b0590c2a8b87f354746";
  SECRET_KEY :=
    environ_get env "SECRET_KEY" "dev-key-please-change-in-production";
  HOST := environ_get env "HOST" "127.0.0.1";
  DEFAULT_BOT_NAME := "Assistant";
  DEFAULT_USER_NAME := "User";
  SAFETY_PROMPT :=
    "This conversation must be family friendly. Avoid using profanity, or being rude. "
    +:+ "Be courteous and use language which is appropriate for any audience. "
    +:+ "Avoid NSFW content. ###";
  REQUEST_TIMEOUT := 30;
  MAX_RETRIES := 3
|}.

(** [Config.get_headers()] *)
Definition get_headers (c : t) : list (string * string) :=
  [ ("Authorization", "Bearer " +:+ CHAI_API_TOKEN c);
    ("Content-Type", "application/json") ].

End Config.

(* ===================================================================== *)
(** * [chai_client.py]: the conversation record *)
(* ===================================================================== *)

(** [@dataclass class ChatMessage]. The dataclass does not check the types
    of its fields: they hold whatever the caller passes. *)
Record ChatMessage := { sender : pyval; message : pyval }.

(** [ChatMessage.to_dict]: [asdict(self)], the fields in declaration
    order. *)
Definition to_dict (m : ChatMessage) : pyval :=
  PDict [ ("sender", sender m); ("message", message m) ].

(** [@dataclass class ChatRequest] *)
Record ChatRequest := {
  prompt : pyval;
  bot_name : pyval;
  user_name : pyval;
  chat_history : list ChatMessage;
  memory : pyval
}.

(** [ChatRequest.to_payload] *)
Definition to_payload (r : ChatRequest) : pydict :=
  [ ("memory", memory r);
    ("prompt", prompt r);
    ("bot_name", bot_name r);
    ("user_name", user_name r);
    ("chat_history", PList (to_dict <$> chat_history r)) ].

(* ===================================================================== *)
(** * The flask session, the wire, and the monad of the handler *)
(* ===================================================================== *)

(** What [requests.Session.post] is called with. *)
Record HttpRequest := {
  req_url : string;
  req_headers : list (string * string);
  req_json : pydict;
  req_timeout : Z
}.

(** The members of [requests.Response] that the client reads:
    [response.status_code], [response.text] and the outcome of
    [response.json()], which raises [JSONDecodeError] when the body is not
    a JSON document. *)
Record Response := {
  status_code : Z;
  text : string;
  json : result pyval
}.

(** The flask [session]: a dict with the keys ['session_id'] and
    ['chat_history'], each one present or not. The application only ever
    stores a list under ['chat_history']. *)
Record Session := {
  session_id : option string;
  stored_history : option (list pyval)
}.

(** The state that a request handler can change: the session, and the
    requests it has put on the wire so far. *)
Record World := {
  session : Session;
  wire : list HttpRequest
}.

(** State and exceptions: a raised exception keeps the state reached. *)
Definition M (A : Type) : Type := World -> result A * World.

Definition ret {A} (a : A) : M A := fun w => (Return a, w).

Definition bind {A B} (m : M A) (k : A -> M B) : M B :=
  fun w =>
    match m w with
    | (Return a, w') => k a w'
    | (Raise e, w') => (Raise e, w')
    end.

Definition lift {A} (r : result A) : M A := fun w => (r, w).

Notation "'let*' x ':=' m 'in' k" := (bind m (fun x => k))
  (at level 10, x name, m at level 200, k at level 200,
   format "'[v' 'let*'  x  :=  m  'in'  '/' k ']'").

(** [try: body  except ...: ...]. The handler answers [None] for an
    exception that no [except] clause matches, which is then raised
    again. *)
Definition try_except {A} (body : M A) (handler : exc -> option (M A)) : M A :=
  fun w =>
    match body w with
    | (Return a, w') => (Return a, w')
    | (Raise e, w') =>
        match handler e with
        | Some h => h w'
        | None => (Raise e, w')
        end
    end.

(** The same for code without state. *)
Fixpoint mapM_result {A B} (f : A -> result B) (l : list A) : result (list B) :=
  match l with
  | [] => Return []
  | a :: l' =>
      match f a with
      | Raise e => Raise e
      | Return b =>
          match mapM_result f l' with
          | Raise e => Raise e
          | Return bs => Return (b :: bs)
          end
      end
  end.

(* ===================================================================== *)
(** * [chai_client.py]: [ChaiAPIClient] *)
(* ===================================================================== *)

Section Client.

(** The configuration, and [self.session.post]: the mounted adapter with
    its retry strategy answers a request with a response or raises. *)
Variable cfg : Config.t.
Variable post : HttpRequest -> result Response.

(** [self.session.post(...)], recorded on the wire. *)
Definition session_post (rq : HttpRequest) : M Response :=
  fun w => (post rq, {| session := session w; wire := wire w ++ [rq] |}).

(** What [send_message] returns: [Tuple[bool, Optional[str], Optional[str]]].
    The second component is whatever the upstream's [model_output] holds. *)
Definition SendResult : Type := bool * pyval * option string.

(** [ChaiAPIClient.send_message] (the calls to [logger] left out). *)
Definition send_message (request : ChatRequest) : M SendResult :=
  try_except
    (let payload := to_payload request in
     let* response := session_post
                      {| req_url := Config.CHAI_API_URL cfg;
                         req_headers := Config.get_headers cfg;
                         req_json := payload;
                         req_timeout := Config.REQUEST_TIMEOUT cfg |} in
     if status_code response =? 200 then
       try_except
         (let* response_data := lift (json response) in
          let* response_text := lift (py_get response_data "model_output"
                                             (PStr "No response")) in
          ret (true, response_text, None))
         (fun e =>
            if is_JSONDecodeError (exc_type e) then
              (* Fallback to raw text if JSON parsing fails *)
              let response_text := PStr (strip (text response)) in
              Some (ret (true, response_text, None))
            else None)
     else
       let error_msg := "API returned status "
                        +:+ py_str_int (status_code response)
                        +:+ ": " +:+ text response in
       ret (false, PNone, Some error_msg))
    (fun e =>
       if is_Timeout (exc_type e) then
         Some (ret (false, PNone, Some "Request timed out"))
       else if is_ConnectionError (exc_type e) then
         Some (ret (false, PNone, Some "Failed to connect to CHAI API"))
       else if is_RequestException (exc_type e) then
         Some (ret (false, PNone, Some ("Request failed: " +:+ exc_str e)))
       else
         Some (ret (false, PNone, Some ("Unexpected error: " +:+ exc_str e)))).

(** [ChaiAPIClient.create_chat_request]. An argument left out is [None];
    [chat_history] is [None] or a list. *)
Definition create_chat_request
    (user_message : pyval) (chat_history : option (list pyval))
    (bot_name user_name custom_prompt : pyval) : result ChatRequest :=
  let bot_name := py_or bot_name (PStr (Config.DEFAULT_BOT_NAME cfg)) in
  let user_name := py_or user_name (PStr (Config.DEFAULT_USER_NAME cfg)) in
  let prompt := py_or custom_prompt (PStr (Config.SAFETY_PROMPT cfg)) in
  (* Convert history to ChatMessage objects *)
  match
    match chat_history with
    | None | Some [] => Return []
    | Some l =>
        mapM_result
          (fun msg =>
             match py_getitem msg "sender" with
             | Raise e => Raise e
             | Return s =>
                 match py_getitem msg "message" with
                 | Raise e => Raise e
                 | Return m => Return {| sender := s; message := m |}
                 end
             end) l
    end
  with
  | Raise e => Raise e
  | Return history =>
      (* Add current user message *)
      let history :=
        history ++ [ {| sender := user_name; message := user_message |} ] in
      Return {| prompt := prompt;
                bot_name := bot_name;
                user_name := user_name;
                chat_history := history;
                memory := PStr "" |}
  end.

End Client.

(* ===================================================================== *)
(** * The session built by [_create_session]: the retry strategy *)
(* ===================================================================== *)

(** [_create_session] mounts an [HTTPAdapter] whose [max_retries] is
    [Retry(total=Config.MAX_RETRIES, backoff_factor=1,
           status_forcelist=[429, 500, 502, 503, 504],
           allowed_methods=["POST"])].
    The retry loop itself is urllib3's ([Retry.increment], [Retry.is_retry],
    [Retry.is_exhausted], [HTTPConnectionPool.urlopen]) and the translation
    of its errors is requests' ([HTTPAdapter.send]); this module follows
    those for the counters that this configuration sets. The counters
    [connect], [read], [status], [other] keep their default [None], and
    the sleeps between attempts take time but change no result. *)
Module Transport.

Record Retry := {
  total : Z;
  status_forcelist : list Z;
  allowed_methods : list string;
  raise_on_status : bool;              (* default [True] *)
  respect_retry_after_header : bool    (* default [True] *)
}.

(** What one attempt on the wire yields: a response, with or without a
    [Retry-After] header, or an error of the connection. *)
Inductive wire_error :=
  | NewConnectionError
  | ConnectTimeoutError
  | ReadTimeoutError
  | ProtocolError.

Inductive wire_outcome :=
  | WResponse (r : Response) (has_retry_after : bool)
  | WError (e : wire_error).

(** The [reason] of a [MaxRetryError]. *)
Inductive reason :=
  | ResponseError (status : Z)
  | WireError (e : wire_error).

(** What [urlopen] raises: [MaxRetryError], or the error of the wire
    itself when it may not be retried. *)
Inductive failure :=
  | Exhausted (why : reason)
  | Reraised (e : wire_error).

(** [Retry._is_method_retryable]: no list of methods allows them all. The
    method is compared in upper case; the client's is ["POST"]. *)
Definition is_method_retryable (r : Retry) (method : string) : bool :=
  match allowed_methods r with
  | [] => true
  | methods => bool_decide (method ∈ methods)
  end.

(** [Retry._is_read_error] *)
Definition is_read_error (e : wire_error) : bool :=
  match e with
  | ReadTimeoutError | ProtocolError => true
  | _ => false
  end.

(** [Retry.RETRY_AFTER_STATUS_CODES] *)
Definition RETRY_AFTER_STATUS_CODES : list Z := [413; 429; 503].

(** [Retry.is_retry(method, status_code, has_retry_after)] *)
Definition is_retry (r : Retry) (method : string) (status : Z)
    (has_retry_after : bool) : bool :=
  if negb (is_method_retryable r method) then false
  else if bool_decide (status ∈ status_forcelist r) then true
  else negb (total r =? 0) && respect_retry_after_header r
       && has_retry_after && bool_decide (status ∈ RETRY_AFTER_STATUS_CODES).

(** [Retry.is_exhausted]: the counters that are set and not zero, here
    [total] alone, have a minimum below zero. *)
Definition is_exhausted (r : Retry) : bool :=
  negb (total r =? 0) && (total r <? 0).

(** [Retry.increment]: a read error with a method that may not be retried
    is raised again; otherwise [total] loses one unit, and [MaxRetryError]
    with the given reason is raised when the new counters are
    exhausted. *)
Definition increment (r : Retry) (method : string) (why : reason)
    : Retry + failure :=
  let new_retry := {| total := total r - 1;
                      status_forcelist := status_forcelist r;
                      allowed_methods := allowed_methods r;
                      raise_on_status := raise_on_status r;
                      respect_retry_after_header :=
                        respect_retry_after_header r |} in
  match why with
  | WireError e =>
      if is_read_error e && negb (is_method_retryable r method)
      then inr (Reraised e)
      else if is_exhausted new_retry then inr (Exhausted why)
      else inl new_retry
  | ResponseError _ =>
      if is_exhausted new_retry then inr (Exhausted why) else inl new_retry
  end.

(** [HTTPConnectionPool.urlopen], called by requests with
    [redirect=False]: the answer, and the number of requests put on the
    wire. [upstream n] is what the [n]-th request of this call meets. The
    recursion of the source is bounded by [fuel]; [None] is a run that
    [fuel] did not cover. *)
Fixpoint urlopen (fuel : nat) (upstream : nat -> wire_outcome)
    (method : string) (retries : Retry) (sent : nat)
    : option (Response + failure) * nat :=
  match fuel with
  | O => (None, sent)
  | S fuel' =>
      match upstream sent with
      | WError e =>
          match increment retries method (WireError e) with
          | inr f => (Some (inr f), S sent)
          | inl retries' => urlopen fuel' upstream method retries' (S sent)
          end
      | WResponse response has_retry_after =>
          if is_retry retries method (status_code response) has_retry_after
          then
            match increment retries method
                            (ResponseError (status_code response)) with
            | inr f =>
                if raise_on_status retries
                then (Some (inr f), S sent)
                else (Some (inl response), S sent)
            | inl retries' => urlopen fuel' upstream method retries' (S sent)
            end
          else (Some (inl response), S sent)
      end
  end.

(** Fuel that covers every run from [retries]. *)
Definition enough_fuel (retries : Retry) : nat :=
  S (Z.to_nat (total retries)).

Section Adapter.

(** [str(e)] of the exception that requests raises: text made by the
    libraries from the pool, the URL and the reason. *)
Variable describe : failure -> string.

(** [HTTPAdapter.send]: [MaxRetryError] becomes [RetryError] for a
    [ResponseError] reason, [ConnectTimeout] for a connect timeout, and
    [ConnectionError] otherwise; a [ReadTimeoutError] raised again becomes
    [ReadTimeout], another error [ConnectionError]. *)
Definition translate (f : failure) : exc :=
  match f with
  | Exhausted (ResponseError _) => Exc RetryError (describe f)
  | Exhausted (WireError ConnectTimeoutError) => Exc ConnectTimeout (describe f)
  | Exhausted (WireError _) => Exc ConnectionError (describe f)
  | Reraised ReadTimeoutError => Exc ReadTimeout (describe f)
  | Reraised ConnectTimeoutError => Exc ConnectTimeout (describe f)
  | Reraised _ => Exc ConnectionError (describe f)
  end.

Definition adapter_send (max_retries : Retry) (upstream : nat -> wire_outcome)
    (method : string) : option (result Response) * nat :=
  match urlopen (enough_fuel max_retries) upstream method max_retries 0 with
  | (Some (inl response), n) => (Some (Return response), n)
  | (Some (inr f), n) => (Some (Raise (translate f)), n)
  | (None, n) => (None, n)
  end.

End Adapter.

End Transport.

(** [ChaiAPIClient._create_session]: the retry strategy of the adapter. *)
Definition retry_strategy (cfg : Config.t) : Transport.Retry :=
  {| Transport.total := Config.MAX_RETRIES cfg;
     Transport.status_forcelist := [429; 500; 502; 503; 504];
     Transport.allowed_methods := ["POST"];
     Transport.raise_on_status := true;
     Transport.respect_retry_after_header := true |}.

(* ===================================================================== *)
(** * [app.py]: the handler of [/api/chat] *)
(* ===================================================================== *)

(** [jsonify(body), status]: the JSON object of the reply and the HTTP
    status (200 when the source gives none). *)
Definition HttpReply : Type := pydict * Z.

(** The local variable [chat_history] of the handler is a reference to a
    list object: the very list stored in the session when the key is
    there, a new list otherwise. *)
Inductive list_ref :=
  | SessionList
  | FreshList (l : list pyval).

(** [session.get('chat_history', [])] *)
Definition session_get_chat_history : M list_ref :=
  fun w =>
    match stored_history (session w) with
    | Some _ => (Return SessionList, w)
    | None => (Return (FreshList []), w)
    end.

(** Reading the list behind the reference. *)
Definition deref (r : list_ref) : M (list pyval) :=
  fun w =>
    match r with
    | SessionList => (Return (default [] (stored_history (session w))), w)
    | FreshList l => (Return l, w)
    end.

(** [chat_history.append(x)]: on the stored list, it changes the session
    at once. *)
Definition list_append (r : list_ref) (x : pyval) : M list_ref :=
  fun w =>
    match r with
    | SessionList =>
        (Return SessionList,
         {| session :=
              {| session_id := session_id (session w);
                 stored_history :=
                   Some (default [] (stored_history (session w)) ++ [x]) |};
            wire := wire w |})
    | FreshList l => (Return (FreshList (l ++ [x])), w)
    end.

(** [session['chat_history'] = chat_history] *)
Definition session_set_chat_history (r : list_ref) : M unit :=
  fun w =>
    let l := match r with
             | SessionList => default [] (stored_history (session w))
             | FreshList l => l
             end in
    (Return tt,
     {| session := {| session_id := session_id (session w);
                      stored_history := Some l |};
        wire := wire w |}).

(** [f'{error}'] for an [Optional[str]]. *)
Definition format_optional_str (o : option string) : string :=
  match o with
  | Some s => s
  | None => "None"
  end.

(** The arguments of the decorator of [chat]:
    [@rate_limit(limit=5, window=60)]. *)
Definition chat_rate_limit : nat := 5.
Definition chat_rate_window : Z := 60.

Section Handler.

Variable cfg : Config.t.
Variable post : HttpRequest -> result Response.

(** The body of [chat]. [get_json] is the outcome of [request.get_json()];
    [ts_user] and [ts_bot] are the two readings of
    [datetime.now().isoformat()]. The [session_id], read for the log only,
    and the calls to [logger] are left out. *)
Definition chat (get_json : result pyval) (ts_user ts_bot : string)
    : M HttpReply :=
  try_except
    (let* data := lift get_json in
     let* missing :=
       (if negb (truthy data) then ret true
        else let* present := lift (py_contains "message" data) in
             ret (negb present)) in
     if (missing : bool) then
       ret ([ ("success", PBool false);
              ("error", PStr "Missing message in request") ], 400)
     else
       let* raw := lift (py_getitem data "message") in
       let* user_message := lift (py_strip raw) in
       if negb (truthy user_message) then
         ret ([ ("success", PBool false);
                ("error", PStr "Empty message not allowed") ], 400)
       else
         (* Get session data *)
         let* chat_history := session_get_chat_history in
         (* Extract optional parameters *)
         let* bot_name :=
           lift (py_get data "bot_name"
                        (PStr (Config.DEFAULT_BOT_NAME cfg))) in
         let* user_name :=
           lift (py_get data "user_name"
                        (PStr (Config.DEFAULT_USER_NAME cfg))) in
         let* custom_prompt := lift (py_get data "custom_prompt" PNone) in
         (* Create and send request to CHAI API *)
         let* stored := deref chat_history in
         let* chat_request :=
           lift (create_chat_request cfg user_message (Some stored)
                                     bot_name user_name custom_prompt) in
         let* sent := send_message cfg post chat_request in
         match sent with
         | (true, response, _) =>
             (* Update session history *)
             let* chat_history :=
               list_append chat_history
                 (PDict [ ("sender", user_name);
                          ("message", user_message);
                          ("timestamp", PStr ts_user) ]) in
             let* chat_history :=
               list_append chat_history
                 (PDict [ ("sender", bot_name);
                          ("message", response);
                          ("timestamp", PStr ts_bot) ]) in
             let* _ := session_set_chat_history chat_history in
             ret ([ ("success", PBool true);
                    ("response", response);
                    ("bot_name", bot_name);
                    ("user_name", user_name) ], 200)
         | (false, _, error) =>
             ret ([ ("success", PBool false);
                    ("error", PStr ("Chat service error: "
                                    +:+ format_optional_str error)) ], 500)
         end)
    (fun e =>
       Some (ret ([ ("success", PBool false);
                    ("error", PStr "Internal server error") ], 500))).

End Handler.

(* ===================================================================== *)
(** * The admission controller *)
(* ===================================================================== *)

Module Admission.

(** Modelled from the spec: the admission controller behind the decorator
    [rate_limit] of [security_middleware.py], a module that [app.py]
    imports and that is not among the sources. The specification gives its
    algorithm: per identity an ordered sequence of admitted timestamps; on
    each call drop the timestamps older than [now - windowSeconds]; when
    fewer than [maxRequests] remain, append [now] and admit; otherwise
    reject. Instants are whole seconds. *)
Record Limits := {
  maxRequests : nat;
  windowSeconds : Z
}.

(** Modelled from the spec: the table of [RateWindowState] records, keyed
    by client identity. *)
Abbreviation Table := (gmap string (list Z)).

(** Modelled from the spec: "drop all timestamps older than
    [now - windowSeconds]". *)
Definition prune (lim : Limits) (now : Z) (timestamps : list Z) : list Z :=
  List.filter (fun t => now - windowSeconds lim <=? t) timestamps.

(** Modelled from the spec: one admission check on the record of one
    identity, "if the remaining count is [< maxRequests], append [now] and
    return [true] (admit); otherwise return [false] (reject)". The pruned
    sequence is what the record holds after the call. *)
Definition check (lim : Limits) (now : Z) (timestamps : list Z)
    : bool * list Z :=
  let live := prune lim now timestamps in
  if (length live <? maxRequests lim)%nat
  then (true, live ++ [now])
  else (false, live).

(** Modelled from the spec: [allow(identity, now)], on the table of
    records; an identity never seen has the empty sequence. *)
Definition allow (lim : Limits) (identity : string) (now : Z) (tbl : Table)
    : bool * Table :=
  let '(admitted, timestamps) :=
    check lim now (default [] (tbl !! identity)) in
  (admitted, <[identity := timestamps]> tbl).

(** A sequence of admission checks, in order: the decisions and the table
    they leave. *)
Fixpoint run (lim : Limits) (calls : list (string * Z)) (tbl : Table)
    : list bool * Table :=
  match calls with
  | [] => ([], tbl)
  | (identity, now) :: calls' =>
      let '(d, tbl') := allow lim identity now tbl in
      let '(ds, tbl'') := run lim calls' tbl' in
      (d :: ds, tbl'')
  end.

(** The same on one record. *)
Fixpoint checks (lim : Limits) (times : list Z) (timestamps : list Z)
    : list bool * list Z :=
  match times with
  | [] => ([], timestamps)
  | now :: times' =>
      let '(d, timestamps') := check lim now timestamps in
      let '(ds, timestamps'') := checks lim times' timestamps' in
      (d :: ds, timestamps'')
  end.

(** The instants of the calls of one identity, and the decisions they
    got, in a sequence of checks. *)
Fixpoint times_of (identity : string) (calls : list (string * Z)) : list Z :=
  match calls with
  | [] => []
  | (i, now) :: calls' =>
      if String.eqb i identity then now :: times_of identity calls'
      else times_of identity calls'
  end.

Fixpoint decisions_of (identity : string) (calls : list (string * Z))
    (decisions : list bool) : list bool :=
  match calls, decisions with
  | (i, _) :: calls', d :: decisions' =>
      if String.eqb i identity then d :: decisions_of identity calls' decisions'
      else decisions_of identity calls' decisions'
  | _, _ => []
  end.

(** The tables that a sequence of checks can leave, starting with no
    record at all. *)
Definition reachable (lim : Limits) (tbl : Table) : Prop :=
  exists calls, (run lim calls ∅).2 = tbl.

(** The instants, among [times], of the checks that were admitted. *)
Fixpoint admitted (times : list Z) (decisions : list bool) : list Z :=
  match times, decisions with
  | t :: times', d :: decisions' =>
      if d then t :: admitted times' decisions' else admitted times' decisions'
  | _, _ => []
  end.

(** How many of the instants [ts] lie in the span that starts at [lo] and
    is one window long. *)
Definition in_span (lim : Limits) (lo : Z) (ts : list Z) : nat :=
  length (List.filter (fun t => (lo <=? t) && (t <=? lo + windowSeconds lim)) ts).

(** The invariant of the table: no record holds more than [maxRequests]
    timestamps. *)
Definition bounded (lim : Limits) (tbl : Table) : Prop :=
  forall identity ts,
    tbl !! identity = Some ts -> (length ts <= maxRequests lim)%nat.

(** The limits of the chat operation. *)
Definition chat_limits : Limits :=
  {| maxRequests := chat_rate_limit; windowSeconds := chat_rate_window |}.

End Admission.

(* ===================================================================== *)
(** * The client on its mounted session *)
(* ===================================================================== *)

(** [self.session.post] as [_create_session] builds it: the adapter with
    [retry_strategy], in front of an upstream that answers the [n]-th
    request on the wire with [upstream rq n]. The adapter always answers
    ([adapter_send_total] below), so the last branch is never taken.
    This is one [HTTPAdapter.send], which is all that [Session.post] does
    unless the answer is a redirect (a status of [REDIRECT_STATI] with a
    [Location] header): requests follows a redirect with further
    requests, which are not modelled. The properties of [mounted_post]
    are stated for upstreams whose answers are not redirects. *)
Definition mounted_post (cfg : Config.t) (describe : Transport.failure -> string)
    (upstream : HttpRequest -> nat -> Transport.wire_outcome)
    (rq : HttpRequest) : result Response :=
  match
    (Transport.adapter_send describe (retry_strategy cfg) (upstream rq) "POST").1
  with
  | Some r => r
  | None => Raise (Exc OtherException "")
  end.

(** The number of requests that one [post] puts on the wire: those of the
    one [HTTPAdapter.send] of [mounted_post], for an answer that is not a
    redirect. *)
Definition attempts (cfg : Config.t) (describe : Transport.failure -> string)
    (upstream : HttpRequest -> nat -> Transport.wire_outcome)
    (rq : HttpRequest) : nat :=
  (Transport.adapter_send describe (retry_strategy cfg) (upstream rq) "POST").2.


(** The request that [send_message] posts. *)
Definition request_of (cfg : Config.t) (request : ChatRequest) : HttpRequest :=
  {| req_url := Config.CHAI_API_URL cfg;
     req_headers := Config.get_headers cfg;
     req_json := to_payload request;
     req_timeout := Config.REQUEST_TIMEOUT cfg |}.

(** The world after one more request on the wire. *)
Definition posted (rq : HttpRequest) (w : World) : World :=
  {| session := session w; wire := wire w ++ [rq] |}.

(** A stored history entry that [create_chat_request] can convert: a dict
    with the keys ['sender'] and ['message']. *)
Definition convertible (msg : pyval) : bool :=
  match msg with
  | PDict d =>
      match dict_lookup "sender" d, dict_lookup "message" d with
      | Some _, Some _ => true
      | _, _ => false
      end
  | _ => false
  end.

Definition well_formed_history (h : option (list pyval)) : bool :=
  forallb convertible (default [] h).

(** A configuration value is overridable when two process environments
    give it two values. *)
Definition overridable {A} (field : Config.t -> A) : Prop :=
  exists env1 env2, field (Config.load env1) <> field (Config.load env2).

(** The conversion of one stored entry by [create_chat_request]. *)
Definition converts_to (msg : pyval) (m : ChatMessage) : Prop :=
  py_getitem msg "sender" = Return (sender m)
  /\ py_getitem msg "message" = Return (message m).

(** The replies of the handler [chat]. *)
Definition reply_empty_message : HttpReply :=
  ([ ("success", PBool false);
     ("error", PStr "Empty message not allowed") ], 400).

Definition reply_success (response bot user : pyval) : HttpReply :=
  ([ ("success", PBool true);
     ("response", response);
     ("bot_name", bot);
     ("user_name", user) ], 200).

Definition reply_service_error (error : option string) : HttpReply :=
  ([ ("success", PBool false);
     ("error", PStr ("Chat service error: " +:+ format_optional_str error)) ],
   500).

(** The two entries that a successful chat appends to the history. *)
Definition user_entry (user user_message : pyval) (ts : string) : pyval :=
  PDict [ ("sender", user); ("message", user_message); ("timestamp", PStr ts) ].

Definition bot_entry (bot response : pyval) (ts : string) : pyval :=
  PDict [ ("sender", bot); ("message", response); ("timestamp", PStr ts) ].

(** The world after a successful chat: the two entries after the stored
    history, and one more request on the wire. *)
Definition chatted (rq : HttpRequest) (entries : list pyval) (w : World)
    : World :=
  {| session :=
       {| session_id := session_id (session w);
          stored_history :=
            Some (default [] (stored_history (session w)) ++ entries) |};
     wire := wire w ++ [rq] |}.

(* ===================================================================== *)
(** * [app.py]: the other routes, and a session served by them *)
(* ===================================================================== *)

(** [index]: a session without ['session_id'] gets [new_id], the value of
    [str(uuid.uuid4())], and an empty history; the reply is the rendered
    template. *)
Definition index (new_id : string) : M string :=
  fun w =>
    match session_id (session w) with
    | None =>
        (Return "index.html",
         {| session := {| session_id := Some new_id;
                          stored_history := Some [] |};
            wire := wire w |})
    | Some _ => (Return "index.html", w)
    end.

(** [session.get('session_id')] as a Python value. *)
Definition session_id_value (s : Session) : pyval :=
  match session_id s with
  | Some i => PStr i
  | None => PNone
  end.

(** [get_history] *)
Definition get_history : M HttpReply :=
  try_except
    (fun w =>
       let history := default [] (stored_history (session w)) in
       (Return ([ ("success", PBool true);
                  ("history", PList history);
                  ("session_id", session_id_value (session w)) ], 200), w))
    (fun e =>
       Some (ret ([ ("success", PBool false);
                    ("error", PStr "Failed to retrieve chat history") ], 500))).

(** [clear_history] *)
Definition clear_history : M HttpReply :=
  try_except
    (fun w =>
       (Return ([ ("success", PBool true);
                  ("message", PStr "Chat history cleared") ], 200),
        {| session := {| session_id := session_id (session w);
                         stored_history := Some [] |};
           wire := wire w |}))
    (fun e =>
       Some (ret ([ ("success", PBool false);
                    ("error", PStr "Failed to clear chat history") ], 500))).

(** [get_config] *)
Definition get_config (cfg : Config.t) : HttpReply :=
  ([ ("bot_name", PStr (Config.DEFAULT_BOT_NAME cfg));
     ("user_name", PStr (Config.DEFAULT_USER_NAME cfg));
     ("safety_prompt", PStr (Config.SAFETY_PROMPT cfg)) ], 200).

(** One request to the application, with what its handler reads from
    outside: the new identifier for [index]; the upstream, the body and
    the two clock readings for [chat]. *)
Inductive call :=
  | CallIndex (new_id : string)
  | CallChat (post : HttpRequest -> result Response) (get_json : result pyval)
             (ts_user ts_bot : string)
  | CallHistory
  | CallClear.

(** The world after one request, and after a sequence of them. *)
Definition handle (cfg : Config.t) (c : call) (w : World) : World :=
  match c with
  | CallIndex new_id => (index new_id w).2
  | CallChat post get_json ts_user ts_bot =>
      (chat cfg post get_json ts_user ts_bot w).2
  | CallHistory => (get_history w).2
  | CallClear => (clear_history w).2
  end.

Definition serve (cfg : Config.t) (calls : list call) (w : World) : World :=
  fold_left (fun w c => handle cfg c w) calls w.

(** An entry as [chat] stores it: a dict with the keys ['sender'],
    ['message'] and ['timestamp']. *)
Definition is_entry (v : pyval) : bool :=
  match v with
  | PDict d => bool_decide (dict_keys d = ["sender"; "message"; "timestamp"])
  | _ => false
  end.

(** A history made of whole exchanges: pairs of entries, appended one
    pair after the other. *)
Inductive whole_exchanges : list pyval -> Prop :=
  | no_exchange : whole_exchanges []
  | one_more_exchange (h : list pyval) (u b : pyval) :
      whole_exchanges h -> is_entry u = true -> is_entry b = true ->
      whole_exchanges (h ++ [u; b]).





(** The other replies of [chat]. *)
Definition reply_missing_message : HttpReply :=
  ([ ("success", PBool false);
     ("error", PStr "Missing message in request") ], 400).

Definition reply_internal_error : HttpReply :=
  ([ ("success", PBool false);
     ("error", PStr "Internal server error") ], 500).

(** The request that an accepted chat builds from the body [d], the
    stripped message and the converted history [earlier]. *)
Definition chat_request_of (cfg : Config.t) (d : pydict) (stripped : string)
    (earlier : list ChatMessage) : ChatRequest :=
  let user :=
    py_or (dict_get "user_name" (PStr (Config.DEFAULT_USER_NAME cfg)) d)
          (PStr (Config.DEFAULT_USER_NAME cfg)) in
  {| prompt := py_or (dict_get "custom_prompt" PNone d)
                     (PStr (Config.SAFETY_PROMPT cfg));
     bot_name :=
       py_or (dict_get "bot_name" (PStr (Config.DEFAULT_BOT_NAME cfg)) d)
             (PStr (Config.DEFAULT_BOT_NAME cfg));
     user_name := user;
     chat_history :=
       earlier ++ [ {| sender := user; message := PStr stripped |} ];
     memory := PStr "" |}.

(** A string of whitespace only. *)
Fixpoint all_space (s : string) : bool :=
  match s with
  | EmptyString => true
  | String c s' => isspace c && all_space s'
  end.

(** The code points below 256 that Python counts as whitespace: TAB, LF,
    VT, FF, CR, the separators FS, GS, RS, US, SPACE, NEL and NBSP. *)
Definition whitespace_codes : list N :=
  [9; 10; 11; 12; 13; 28; 29; 30; 31; 32; 133; 160]%N.

(** The last character of a string. *)
Fixpoint last_ascii (s : string) : option ascii :=
  match s with
  | EmptyString => None
  | String c s' =>
      match last_ascii s' with
      | None => Some c
      | Some l => Some l
      end
  end.

(** A string that neither starts nor ends with whitespace. *)
Definition trimmed (t : string) : bool :=
  match t with
  | EmptyString => true
  | String c _ =>
      negb (isspace c)
      && match last_ascii t with
         | Some l => negb (isspace l)
         | None => true
         end
  end.

(** [t] is [s] trimmed of its surrounding whitespace: [s] is [t] between
    two runs of whitespace, and [t] has no whitespace at either end. This
    says what trimming gives without saying how [strip] computes it. *)
Definition trim_of (s t : string) : Prop :=
  exists lead trail : string,
    s = lead +:+ t +:+ trail
    /\ all_space lead = true
    /\ all_space trail = true
    /\ trimmed t = true.

(* ===================================================================== *)
(** * [config.py]: the debug flag *)
(* ===================================================================== *)

(** [str.lower] on one character, for the code points below 256: the
    letters A..Z and the accented capitals, the multiplication sign
    apart, move 32 places up. *)
Definition ascii_lower (c : ascii) : ascii :=
  let n := Z.of_N (N_of_ascii c) in
  if ((65 <=? n) && (n <=? 90))
     || ((192 <=? n) && (n <=? 222) && negb (n =? 215))
  then ascii_of_N (Z.to_N (n + 32))
  else c.

Fixpoint str_lower (s : string) : string :=
  match s with
  | EmptyString => EmptyString
  | String c s' => String (ascii_lower c) (str_lower s')
  end.

(** The sixteen spellings of "true". *)
Definition true_spellings : list string :=
  [ "true"; "truE"; "trUe"; "trUE"; "tRue"; "tRuE"; "tRUe"; "tRUE";
    "True"; "TruE"; "TrUe"; "TrUE"; "TRue"; "TRuE"; "TRUe"; "TRUE" ].

(** [Config.DEBUG]: [os.environ.get('DEBUG', 'True').lower() == 'true'] *)
Definition DEBUG (env : Config.environ) : bool :=
  String.eqb (str_lower (Config.environ_get env "DEBUG" "True")) "true".

(* ===================================================================== *)
(** * Concrete inputs *)
(* ===================================================================== *)

(** The configuration in an empty environment, a request, and a session
    with an empty history and nothing on the wire. *)
Definition cfg0 : Config.t := Config.load ∅.

Definition request0 : ChatRequest :=
  {| prompt := PStr (Config.SAFETY_PROMPT cfg0);
     bot_name := PStr "Assistant";
     user_name := PStr "User";
     chat_history := [ {| sender := PStr "User"; message := PStr "hello" |} ];
     memory := PStr "" |}.

Definition world0 : World :=
  {| session := {| session_id := Some "s-1"; stored_history := Some [] |};
     wire := [] |}.

(** A session that holds one earlier exchange. *)
Definition world1 : World :=
  {| session :=
       {| session_id := Some "s-1";
          stored_history :=
            Some [ user_entry (PStr "User") (PStr "hello") "t0";
                   bot_entry (PStr "Assistant") (PStr "hi there") "t1" ] |};
     wire := [] |}.

(** Responses of the upstream: a body that is not JSON, a JSON object
    with and without [model_output], a JSON array. *)
Definition padded_response : Response :=
  {| status_code := 200;
     text := "  plain reply " +:+ String "010"%char EmptyString;
     json := Raise (Exc JSONDecodeError
                        "Expecting value: line 1 column 3 (char 2)") |}.

Definition null_output_response : Response :=
  {| status_code := 200;
     text := "{model_output: null}";
     json := Return (PDict [ ("model_output", PNone) ]) |}.

Definition plain_response : Response :=
  {| status_code := 200;
     text := "plain reply";
     json := Raise (Exc JSONDecodeError
                        "Expecting value: line 1 column 1 (char 0)") |}.

Definition reply_response : Response :=
  {| status_code := 200;
     text := "{model_output: hi there}";
     json := Return (PDict [ ("model_output", PStr "hi there") ]) |}.

Definition empty_object_response : Response :=
  {| status_code := 200; text := "{}"; json := Return (PDict []) |}.

Definition array_response : Response :=
  {| status_code := 200; text := "[]"; json := Return (PList []) |}.



Definition describe0 (f : Transport.failure) : string :=
  match f with
  | Transport.Exhausted (Transport.ResponseError status) =>
      "Max retries exceeded (Caused by ResponseError('too many "
      +:+ py_str_int status +:+ " error responses'))"
  | Transport.Exhausted (Transport.WireError _) => "Max retries exceeded"
  | Transport.Reraised _ => "Read timed out."
  end.

(** Upstreams: one that answers 404, one that answers 503 twice and then
    replies, one that cannot be reached. *)
Definition not_found_response : Response :=
  {| status_code := 404;
     text := "Not Found";
     json := Raise (Exc JSONDecodeError
                        "Expecting value: line 1 column 1 (char 0)") |}.




(** A session whose stored history has an entry without ['message'], a
    body whose message is a number, and a sequence of requests. *)
Definition world_corrupt : World :=
  {| session :=
       {| session_id := Some "s-1";
          stored_history := Some [ PDict [ ("sender", PStr "User") ] ] |};
     wire := [] |}.

Definition number_data : pydict := [ ("message", PInt 5) ].

Definition calls1 : list call :=
  [ CallIndex "s-2";
    CallChat (fun _ => Return {| status_code := 200;
                                 text := "plain reply";
                                 json := Raise (Exc JSONDecodeError "") |})
             (Return (PDict [ ("message", PStr "hello") ])) "t2" "t3";
    CallHistory;
    CallChat (fun _ => Raise (Exc ReadTimeout "Read timed out."))
             (Return (PDict [ ("message", PStr "again") ])) "t4" "t5";
    CallClear;
    CallChat (fun _ => Return {| status_code := 200;
                                 text := "{}";
                                 json := Return (PDict []) |})
             (Return (PDict [ ("message", PStr "anyone?") ])) "t6" "t7" ].

(** Bodies of chat requests: a blank message, and a message with a bot
    name. *)
Definition blank_data : pydict := [ ("message", PStr "  ") ].

Definition hello_data : pydict :=
  [ ("message", PStr " how are you? "); ("bot_name", PStr "Chai") ].

(** Admission checks of two identities: six of ["A"] within one minute,
    and one more 61 seconds after the first. *)
Definition calls0 : list (string * Z) :=
  [ ("A", 100); ("A", 110); ("B", 115); ("A", 120); ("A", 130);
    ("A", 140); ("B", 150); ("A", 160); ("A", 161) ].

(* ===================================================================== *)
(** * Properties of the conversation record *)
(* ===================================================================== *)

(** C7. Serialization of a [ChatRequest] gives a JSON object with exactly
    the keys [memory], [prompt], [bot_name], [user_name], [chat_history],
    holding the fields of the request; [chat_history] is the list of the
    request's messages, as many and in the same order, each one an object
    with exactly the keys [sender] and [message] holding the fields of the
    message. *)
Theorem to_payload_shape (r : ChatRequest) :
  dict_keys (to_payload r)
    = ["memory"; "prompt"; "bot_name"; "user_name"; "chat_history"]
  /\ dict_lookup "memory" (to_payload r) = Some (memory r)
  /\ dict_lookup "prompt" (to_payload r) = Some (prompt r)
  /\ dict_lookup "bot_name" (to_payload r) = Some (bot_name r)
  /\ dict_lookup "user_name" (to_payload r) = Some (user_name r)
  /\ exists items : list pyval,
       dict_lookup "chat_history" (to_payload r) = Some (PList items)
       /\ length items = length (chat_history r)
       /\ forall (i : nat) (m : ChatMessage),
            chat_history r !! i = Some m ->
            exists d, items !! i = Some (PDict d)
                      /\ dict_keys d = ["sender"; "message"]
                      /\ dict_lookup "sender" d = Some (sender m)
                      /\ dict_lookup "message" d = Some (message m).
Proof.
  repeat split; try reflexivity.
  exists (to_dict <$> chat_history r). repeat split.
  - apply length_fmap.
  - intros i m Hi.
    exists [("sender", sender m); ("message", message m)].
    rewrite list_lookup_fmap, Hi. repeat split; reflexivity.
Qed.

(* ===================================================================== *)
(** * Properties of [strip] *)
(* ===================================================================== *)

Lemma rstrip_empty (s : string) : rstrip s = "" <-> all_space s = true.
Proof.
  induction s as [|c s IH]; cbn; [done|].
  destruct (rstrip s) as [|c' r] eqn:Hr.
  - destruct (isspace c); cbn; [tauto|]. split; discriminate.
  - split; [discriminate|]. intros [_ Hs]%andb_true_iff.
    apply IH in Hs. discriminate.
Qed.

Lemma lstrip_all_space (s : string) : all_space s = true -> lstrip s = "".
Proof.
  induction s as [|c s IH]; cbn; [done|].
  destruct (isspace c); cbn; [done|discriminate].
Qed.

Lemma lstrip_some (s : string) :
  all_space s = false ->
  exists c s', lstrip s = String c s' /\ isspace c = false.
Proof.
  induction s as [|c s IH]; cbn; [discriminate|].
  destruct (isspace c) eqn:Hc; cbn; [done|]. intros _. by eexists _, _.
Qed.

Lemma strip_empty (s : string) : strip s = "" <-> all_space s = true.
Proof.
  unfold strip. destruct (all_space s) eqn:Hs.
  - by rewrite (lstrip_all_space s Hs).
  - destruct (lstrip_some s Hs) as (c & s' & -> & Hc).
    rewrite rstrip_empty. cbn. rewrite Hc. done.
Qed.

Lemma rstrip_head (c : ascii) (s : string) :
  isspace c = false -> rstrip (String c s) = String c (rstrip s).
Proof. intros Hc. cbn. destruct (rstrip s); [by rewrite Hc|done]. Qed.

Lemma isspace_codes (c : ascii) :
  isspace c = bool_decide (N_of_ascii c ∈ whitespace_codes).
Proof. destruct c as [[] [] [] [] [] [] [] []]; vm_compute; reflexivity. Qed.

Lemma lstrip_split (s : string) :
  exists lead, s = lead +:+ lstrip s /\ all_space lead = true.
Proof.
  induction s as [|c s (lead & Hs & Hlead)]; [by exists ""|]. cbn.
  destruct (isspace c) eqn:Hc.
  - exists (String c lead). split.
    + change (String c lead +:+ lstrip s) with (String c (lead +:+ lstrip s)).
      by rewrite <- Hs.
    + cbn. by rewrite Hc, Hlead.
  - by exists "".
Qed.

Lemma rstrip_split (s : string) :
  exists trail, s = rstrip s +:+ trail /\ all_space trail = true.
Proof.
  induction s as [|c s (trail & Hs & Htrail)]; [by exists ""|]. cbn.
  destruct (rstrip s) as [|c' r] eqn:Hr.
  - change ("" +:+ trail) with trail in Hs. subst s.
    destruct (isspace c) eqn:Hc.
    + exists (String c trail). split; [done|]. cbn. by rewrite Hc, Htrail.
    + by exists trail.
  - exists trail. split; [|done].
    change (String c (String c' r) +:+ trail)
      with (String c (String c' r +:+ trail)).
    by rewrite <- Hs.
Qed.

Lemma rstrip_last (s : string) :
  match last_ascii (rstrip s) with
  | Some l => isspace l = false
  | None => True
  end.
Proof.
  induction s as [|c s IH]; cbn; [done|].
  destruct (rstrip s) as [|c' r] eqn:Hr.
  - destruct (isspace c) eqn:Hc; cbn; done.
  - change (last_ascii (String c (String c' r)))
      with (match last_ascii (String c' r) with
            | None => Some c
            | Some l => Some l
            end).
    destruct (last_ascii (String c' r)) as [l|] eqn:Hl; [done|].
    cbn in Hl. by destruct (last_ascii r).
Qed.

Lemma strip_trimmed (s : string) : trimmed (strip s) = true.
Proof.
  unfold strip. destruct (all_space s) eqn:Hs.
  - by rewrite (lstrip_all_space s Hs).
  - destruct (lstrip_some s Hs) as (c & s' & -> & Hc).
    pose proof (rstrip_last (String c s')) as Hlast.
    rewrite (rstrip_head c s' Hc) in *. unfold trimmed. rewrite Hc. cbn [negb].
    destruct (last_ascii (String c (rstrip s'))) as [l|]; [|done].
    by rewrite Hlast.
Qed.

Lemma lstrip_app_space (lead s : string) :
  all_space lead = true -> lstrip (lead +:+ s) = lstrip s.
Proof.
  induction lead as [|c lead IH]; [done|]. cbn [all_space].
  intros [Hc Hlead]%andb_true_iff.
  change (String c lead +:+ s) with (String c (lead +:+ s)).
  cbn [lstrip]. rewrite Hc. by apply IH.
Qed.

Lemma rstrip_app_space (s trail : string) :
  all_space trail = true -> rstrip (s +:+ trail) = rstrip s.
Proof.
  intros Htrail. induction s as [|c s IH].
  - by apply rstrip_empty.
  - change (String c s +:+ trail) with (String c (s +:+ trail)).
    cbn [rstrip]. by rewrite IH.
Qed.

Lemma rstrip_trimmed_end (t : string) (l : ascii) :
  last_ascii t = Some l -> isspace l = false -> rstrip t = t.
Proof.
  revert l. induction t as [|c t IH]; intros l; [done|]. cbn.
  destruct (last_ascii t) as [l'|] eqn:Hl.
  - intros [= ->] Hsp. rewrite (IH l eq_refl Hsp). by destruct t.
  - intros [= ->] Hsp. destruct t as [|c' t]; [|by cbn in Hl; destruct (last_ascii t)].
    cbn. by rewrite Hsp.
Qed.

(** What [trim_of] describes is what [strip] computes, and nothing
    else. *)
Lemma trim_of_strip (s t : string) : trim_of s t -> t = strip s.
Proof.
  intros (lead & trail & -> & Hlead & Htrail & Ht). unfold strip.
  rewrite (lstrip_app_space lead _ Hlead).
  destruct t as [|c t]; cbn [String.append].
  - change ("" +:+ trail) with trail.
    rewrite (lstrip_all_space trail Htrail). done.
  - unfold trimmed in Ht. apply andb_true_iff in Ht as [Hc Hl].
    apply negb_true_iff in Hc.
    change (String c t +:+ trail) with (String c (t +:+ trail)).
    cbn [lstrip]. rewrite Hc.
    change (String c (t +:+ trail)) with (String c t +:+ trail).
    rewrite (rstrip_app_space _ trail Htrail).
    destruct (last_ascii (String c t)) as [l|] eqn:Hlast.
    + apply negb_true_iff in Hl. symmetry. by eapply rstrip_trimmed_end.
    + cbn in Hlast. by destruct (last_ascii t).
Qed.

(** [strip] trims: it gives the one part of the string that is left when
    the whitespace at both ends is taken away. *)
Lemma strip_trim_of (s : string) : trim_of s (strip s).
Proof.
  destruct (lstrip_split s) as (lead & Hs & Hlead).
  destruct (rstrip_split (lstrip s)) as (trail & Hl & Htrail).
  exists lead, trail. split; [|by rewrite strip_trimmed].
  unfold strip. by rewrite <- Hl.
Qed.

(* ===================================================================== *)
(** * Properties of [send_message] *)
(* ===================================================================== *)

Section SendMessage.

Variable cfg : Config.t.
Variable post : HttpRequest -> result Response.

(** The three shapes of a run of [send_message], by what [post] does. *)
Lemma send_message_raised request w e :
  post (request_of cfg request) = Raise e ->
  send_message cfg post request w
  = (Return (false, PNone,
             Some (if is_Timeout (exc_type e) then "Request timed out"
                   else if is_ConnectionError (exc_type e)
                   then "Failed to connect to CHAI API"
                   else if is_RequestException (exc_type e)
                   then "Request failed: " +:+ exc_str e
                   else "Unexpected error: " +:+ exc_str e)),
     posted (request_of cfg request) w).
Proof.
  intros Hpost. unfold send_message, try_except, bind, session_post.
  fold (request_of cfg request). rewrite Hpost. cbn.
  destruct (is_Timeout (exc_type e)), (is_ConnectionError (exc_type e)),
    (is_RequestException (exc_type e)); reflexivity.
Qed.

Lemma send_message_not_200 request w response :
  post (request_of cfg request) = Return response ->
  status_code response <> 200 ->
  send_message cfg post request w
  = (Return (false, PNone,
             Some ("API returned status " +:+ py_str_int (status_code response)
                   +:+ ": " +:+ text response)),
     posted (request_of cfg request) w).
Proof.
  intros Hpost Hne. unfold send_message, try_except, bind, session_post.
  fold (request_of cfg request). rewrite Hpost. cbn.
  destruct (Z.eqb_spec (status_code response) 200) as [?|_]; [done|].
  reflexivity.
Qed.

Lemma send_message_200 request w response :
  post (request_of cfg request) = Return response ->
  status_code response = 200 ->
  send_message cfg post request w
  = (match json response with
     | Return (PDict d) =>
         Return (true, dict_get "model_output" (PStr "No response") d, None)
     | Return v =>
         Return (false, PNone,
                 Some ("Unexpected error: " +:+ exc_str (no_attribute v "get")))
     | Raise e =>
         if is_JSONDecodeError (exc_type e)
         then Return (true, PStr (strip (text response)), None)
         else if is_Timeout (exc_type e)
         then Return (false, PNone, Some "Request timed out")
         else if is_ConnectionError (exc_type e)
         then Return (false, PNone, Some "Failed to connect to CHAI API")
         else if is_RequestException (exc_type e)
         then Return (false, PNone, Some ("Request failed: " +:+ exc_str e))
         else Return (false, PNone, Some ("Unexpected error: " +:+ exc_str e))
     end,
     posted (request_of cfg request) w).
Proof.
  intros Hpost H200. unfold send_message, try_except, bind, session_post.
  fold (request_of cfg request). rewrite Hpost. cbn. rewrite H200. cbn.
  destruct (json response) as [v|e]; cbn.
  - destruct v; reflexivity.
  - destruct e as [c s]; destruct c; reflexivity.
Qed.

(** Every run returns a tuple of one of the two shapes, after one call of
    [post]. *)
Lemma send_message_returns (request : ChatRequest) (w : World) :
  exists (ok : bool) (response : pyval) (error : option string),
    send_message cfg post request w
    = (Return (ok, response, error), posted (request_of cfg request) w)
    /\ ((ok = true /\ error = None)
        \/ (ok = false /\ response = PNone /\ exists msg, error = Some msg)).
Proof.
  destruct (post (request_of cfg request)) as [response|e] eqn:Hpost.
  - destruct (decide (status_code response = 200)) as [H200|Hne].
    + rewrite (send_message_200 _ _ _ Hpost H200).
      destruct (json response) as [v|e].
      * destruct v; eexists _, _, _; (split; [reflexivity|]);
          (left; done) || (right; eauto).
      * repeat case_match; eexists _, _, _; (split; [reflexivity|]);
          (left; done) || (right; eauto).
    + rewrite (send_message_not_200 _ _ _ Hpost Hne).
      eexists _, _, _. split; [reflexivity|]. right; eauto.
  - rewrite (send_message_raised request w e Hpost).
    eexists _, _, _. split; [reflexivity|]. right; eauto.
Qed.

(** A run that ends in a failure has the shape of a failure. *)
Ltac failing_run :=
  eexists false, PNone, (Some _);
  split; [reflexivity|];
  split; [right; split; [reflexivity|]; split; [reflexivity|]; by eexists|];
  split; [by intros [[[=] _] _]|done].

(** C2, as amended. For every request, whatever [post] and the parsing of
    the response do, [send_message] returns (it raises nothing), after one
    call of [post], a tuple that is either a success, with no error, or a
    failure, with an error message and no reply, and never both. The
    reply of a success is what the response with status 200 holds: the
    [model_output] of its JSON object, ["No response"] when the object has
    none, or the stripped body when the body is not JSON. So it is text,
    except when the [model_output] of the upstream is not a string: a
    [null] there gives a success whose reply is [None]. *)
Theorem send_message_one_outcome (request : ChatRequest) (w : World) :
  exists (ok : bool) (reply : pyval) (error : option string),
    send_message cfg post request w
    = (Return (ok, reply, error), posted (request_of cfg request) w)
    /\ ((ok = true /\ error = None
         /\ exists response,
              post (request_of cfg request) = Return response
              /\ status_code response = 200
              /\ ((exists d, json response = Return (PDict d)
                             /\ reply = dict_get "model_output"
                                                 (PStr "No response") d)
                  \/ (exists e, json response = Raise e
                                /\ exc_type e = JSONDecodeError
                                /\ reply = PStr (strip (text response)))))
        \/ (ok = false /\ reply = PNone /\ exists msg, error = Some msg))
    /\ ~ ((ok = true /\ error = None)
          /\ (ok = false /\ reply = PNone /\ exists msg, error = Some msg))
    /\ (ok = true ->
        (exists t, reply = PStr t)
        \/ (exists response d v,
              post (request_of cfg request) = Return response
              /\ json response = Return (PDict d)
              /\ dict_lookup "model_output" d = Some v
              /\ reply = v
              /\ forall t, v <> PStr t)).
Proof.
  destruct (post (request_of cfg request)) as [response|e] eqn:Hpost.
  - destruct (decide (status_code response = 200)) as [H200|Hne].
    + rewrite (send_message_200 _ _ _ Hpost H200).
      destruct (json response) as [v|e] eqn:Hjson.
      * destruct v as [| | | | | |d]; try by failing_run.
        exists true, (dict_get "model_output" (PStr "No response") d), None.
        split; [done|]. split; [|split].
        -- left. split; [done|]. split; [done|].
           exists response. split; [done|]. split; [done|]. left. by exists d.
        -- by intros [_ [[=] _]].
        -- intros _. unfold dict_get.
           destruct (dict_lookup "model_output" d) as [v|] eqn:Hkey;
             [|left; by eexists].
           destruct v as [| | | |t| |]; try (left; by eexists);
             right; exists response, d; eexists;
             (split; [done|]); (split; [done|]); (split; [done|]);
             (split; [done|]); done.
      * destruct e as [c m].
        destruct c; try by failing_run.
        exists true, (PStr (strip (text response))), None.
        split; [done|]. split; [|split].
        -- left. split; [done|]. split; [done|].
           exists response. split; [done|]. split; [done|]. right.
           exists (Exc JSONDecodeError m). split; [exact Hjson|]. done.
        -- by intros [_ [[=] _]].
        -- intros _. left. by eexists.
    + rewrite (send_message_not_200 _ _ _ Hpost Hne). by failing_run.
  - rewrite (send_message_raised request w e Hpost). by failing_run.
Qed.

(** C6. When the response has status 200 and its body is not parseable as
    JSON ([response.json()] raises [JSONDecodeError]), [send_message]
    returns a success whose text is the raw body trimmed of its
    surrounding whitespace: the body is that text between two runs of
    whitespace, the text neither starts nor ends with whitespace, and no
    other text is so; it is what [strip] computes. Whitespace is the
    characters of [whitespace_codes]. *)
Theorem send_message_raw_text_fallback
    (request : ChatRequest) (w : World) (response : Response) (e : exc) :
  post (request_of cfg request) = Return response ->
  status_code response = 200 ->
  json response = Raise e ->
  exc_type e = JSONDecodeError ->
  exists t : string,
    send_message cfg post request w
    = (Return (true, PStr t, None), posted (request_of cfg request) w)
    /\ trim_of (text response) t
    /\ (forall t', trim_of (text response) t' -> t' = t)
    /\ t = strip (text response)
    /\ forall c, isspace c = true <-> N_of_ascii c ∈ whitespace_codes.
Proof.
  intros Hpost H200 Hjson Hcls. exists (strip (text response)).
  rewrite (send_message_200 _ _ _ Hpost H200), Hjson, Hcls.
  split; [reflexivity|]. split; [apply strip_trim_of|].
  split; [apply trim_of_strip|]. split; [reflexivity|].
  intros c. rewrite isspace_codes. apply bool_decide_eq_true.
Qed.

(** C9, as amended. When the response has status 200 and its body is a
    JSON object without the key [model_output], [send_message] returns a
    success with the text ["No response"]. *)
Theorem send_message_no_model_output
    (request : ChatRequest) (w : World) (response : Response) (d : pydict) :
  post (request_of cfg request) = Return response ->
  status_code response = 200 ->
  json response = Return (PDict d) ->
  dict_lookup "model_output" d = None ->
  send_message cfg post request w
  = (Return (true, PStr "No response", None),
     posted (request_of cfg request) w).
Proof.
  intros Hpost H200 Hjson Hkey.
  rewrite (send_message_200 _ _ _ Hpost H200), Hjson.
  unfold dict_get. rewrite Hkey. reflexivity.
Qed.

End SendMessage.

(* ===================================================================== *)
(** * Properties of [create_chat_request] *)
(* ===================================================================== *)

Lemma mapM_result_total {A B} (f : A -> result B) (l : list A) :
  (forall a, a ∈ l -> exists b, f a = Return b) ->
  exists bs, mapM_result f l = Return bs
             /\ Forall2 (fun a b => f a = Return b) l bs.
Proof.
  induction l as [|a l IH]; intros Hall; cbn.
  - exists []. split; [done|constructor].
  - destruct (Hall a) as [b Hb]; [left|]. rewrite Hb.
    destruct IH as (bs & -> & Hbs).
    { intros a' Ha'. apply Hall. by right. }
    exists (b :: bs). split; [done|by constructor].
Qed.

Lemma convertible_getitem (msg : pyval) :
  convertible msg = true ->
  exists s m, py_getitem msg "sender" = Return s
              /\ py_getitem msg "message" = Return m.
Proof.
  destruct msg as [| | | | | |d]; try discriminate. cbn.
  destruct (dict_lookup "sender" d), (dict_lookup "message" d);
    try discriminate.
  eauto.
Qed.

Lemma py_or_truthy (a b : pyval) :
  truthy b = true -> truthy (py_or a b) = true.
Proof. unfold py_or. destruct (truthy a) eqn:Ha; done. Qed.

(** A request is built whenever the stored entries can be converted: it
    holds the converted entries, in order, and then the new user
    message. *)
Lemma create_chat_request_returns (cfg : Config.t)
    (user_message : pyval) (history : option (list pyval))
    (bot user custom : pyval) :
  well_formed_history history = true ->
  exists earlier,
    Forall2 converts_to (default [] history) earlier
    /\ create_chat_request cfg user_message history bot user custom
       = Return
           {| prompt := py_or custom (PStr (Config.SAFETY_PROMPT cfg));
              bot_name := py_or bot (PStr (Config.DEFAULT_BOT_NAME cfg));
              user_name := py_or user (PStr (Config.DEFAULT_USER_NAME cfg));
              chat_history :=
                earlier
                ++ [ {| sender :=
                          py_or user (PStr (Config.DEFAULT_USER_NAME cfg));
                        message := user_message |} ];
              memory := PStr "" |}.
Proof.
  intros Hwf. unfold create_chat_request.
  destruct history as [[|msg l]|];
    try (exists []; split; [constructor|done]).
  unfold well_formed_history in Hwf.
  change (default [] (Some (msg :: l))) with (msg :: l) in *.
  match goal with
  | |- context [mapM_result ?g ?xs] =>
      destruct (mapM_result_total g xs) as (earlier & -> & Hall)
  end.
  - intros a Ha. apply list_elem_of_In in Ha.
    apply (proj1 (forallb_forall _ _) Hwf) in Ha.
    destruct (convertible_getitem a Ha) as (s & m & -> & ->). eauto.
  - exists earlier. split; [|done].
    eapply Forall2_impl; [exact Hall|]. intros a [s m] Ha. unfold converts_to.
    cbn. destruct (py_getitem a "sender"); [|discriminate].
    destruct (py_getitem a "message"); [|discriminate].
    by injection Ha as -> ->.
Qed.

(** C10. Whenever [create_chat_request] is called with a history it can
    convert, it returns a request in which a falsy [bot_name], [user_name]
    or [custom_prompt] (absent, or the empty string) is replaced by the
    configured default, a truthy one is kept, so that none of the three is
    ever the empty string, and whose [chat_history] is the converted
    history followed by the new user message, sent by the request's
    [user_name], as its last element. *)
Theorem create_chat_request_defaults (env : Config.environ)
    (user_message : pyval) (history : option (list pyval))
    (bot user custom : pyval) :
  well_formed_history history = true ->
  let cfg := Config.load env in
  exists (r : ChatRequest) (earlier : list ChatMessage),
    create_chat_request cfg user_message history bot user custom = Return r
    /\ (truthy bot = false -> bot_name r = PStr (Config.DEFAULT_BOT_NAME cfg))
    /\ (truthy user = false ->
        user_name r = PStr (Config.DEFAULT_USER_NAME cfg))
    /\ (truthy custom = false -> prompt r = PStr (Config.SAFETY_PROMPT cfg))
    /\ (truthy bot = true -> bot_name r = bot)
    /\ (truthy user = true -> user_name r = user)
    /\ (truthy custom = true -> prompt r = custom)
    /\ bot_name r <> PStr "" /\ user_name r <> PStr "" /\ prompt r <> PStr ""
    /\ Forall2 converts_to (default [] history) earlier
    /\ chat_history r
       = earlier ++ [ {| sender := user_name r; message := user_message |} ]
    /\ last (chat_history r)
       = Some {| sender := user_name r; message := user_message |}.
Proof.
  intros Hwf cfg.
  destruct (create_chat_request_returns cfg user_message history
              bot user custom Hwf) as (earlier & Hall & ->).
  eexists _, earlier. split; [reflexivity|].
  cbn [bot_name user_name prompt chat_history].
  assert (Hne : forall a d, truthy (PStr d) = true -> py_or a (PStr d) <> PStr "").
  { intros a d Hd Heq. pose proof (py_or_truthy a _ Hd) as Ht.
    rewrite Heq in Ht. discriminate. }
  repeat split; try (unfold py_or; intros ->; reflexivity);
    try (apply Hne; reflexivity); try done.
  apply last_snoc.
Qed.

(* ===================================================================== *)
(** * Properties of the handler [chat] *)
(* ===================================================================== *)

Section Chat.

Variable cfg : Config.t.
Variable post : HttpRequest -> result Response.

Lemma dict_lookup_truthy (k : string) (d : pydict) (v : pyval) :
  dict_lookup k d = Some v -> truthy (PDict d) = true.
Proof. destruct d; [discriminate|reflexivity]. Qed.

(** The handler answers every request: its last [except] clause catches
    whatever the body raises. *)
Lemma chat_never_raises (get_json : result pyval) (ts_user ts_bot : string)
    (w : World) :
  exists reply, (chat cfg post get_json ts_user ts_bot w).1 = Return reply.
Proof.
  unfold chat, try_except.
  match goal with
  | |- context [match ?body with _ => _ end] =>
      destruct body as [[reply|e] w']
  end; by eexists.
Qed.

(** The handler leaves the session as it was, or with two entries more
    that [create_chat_request] can convert. *)
Lemma chat_session (get_json : result pyval) (ts_user ts_bot : string)
    (w : World) :
  let w' := (chat cfg post get_json ts_user ts_bot w).2 in
  session w' = session w
  \/ exists user user_message bot response,
       session w'
       = {| session_id := session_id (session w);
            stored_history :=
              Some (default [] (stored_history (session w))
                    ++ [ user_entry user user_message ts_user;
                         bot_entry bot response ts_bot ]) |}.
Proof.
  unfold chat, try_except, bind, lift, ret.
  destruct get_json as [data|e]; [|by left].
  destruct (truthy data); cbn [negb]; [|by left].
  destruct (py_contains "message" data) as [[|]|e]; cbn [negb]; try by left.
  destruct (py_getitem data "message") as [raw|e]; [|by left].
  destruct (py_strip raw) as [user_message|e]; [|by left].
  destruct (truthy user_message); cbn [negb]; [|by left].
  unfold session_get_chat_history, deref.
  destruct (stored_history (session w)) as [h|] eqn:Hstored;
    cbn [default from_option id]; rewrite ?Hstored;
    cbn [default from_option id];
    (destruct (py_get data "bot_name" _) as [bot|e]; [|by left]);
    (destruct (py_get data "user_name" _) as [user|e]; [|by left]);
    (destruct (py_get data "custom_prompt" _) as [custom|e]; [|by left]);
    (destruct (create_chat_request _ _ _ _ _ _) as [request|e]; [|by left]);
    destruct (send_message_returns cfg post request w)
      as (ok & response & error & -> & _);
    (destruct ok; [|by left]); right; exists user, user_message, bot, response;
    unfold list_append, session_set_chat_history; cbn; rewrite ?Hstored; cbn.
  - by rewrite <- app_assoc.
  - done.
Qed.

(** The stored history stays one that [create_chat_request] can convert:
    the hypothesis of the next properties holds in every session that
    only this handler has written. *)
Lemma chat_preserves_well_formed (get_json : result pyval)
    (ts_user ts_bot : string) (w : World) :
  well_formed_history (stored_history (session w)) = true ->
  well_formed_history
    (stored_history (session (chat cfg post get_json ts_user ts_bot w).2))
  = true.
Proof.
  intros Hwf.
  destruct (chat_session get_json ts_user ts_bot w)
    as [->|(user & user_message & bot & response & ->)]; [done|].
  unfold well_formed_history in *. cbn [stored_history default from_option id].
  rewrite forallb_app, Hwf. reflexivity.
Qed.

(** C5. A chat request whose message is empty or has nothing but
    whitespace is answered with the validation error (status 400, "Empty
    message not allowed"), and the world is as before: nothing was put on
    the wire and the session, with its stored history, is unchanged. *)
Theorem chat_rejects_blank_message
    (d : pydict) (s ts_user ts_bot : string) (w : World) :
  dict_lookup "message" d = Some (PStr s) ->
  strip s = "" ->
  chat cfg post (Return (PDict d)) ts_user ts_bot w
  = (Return reply_empty_message, w).
Proof.
  intros Hmsg Hblank.
  unfold chat, try_except, bind, lift, ret.
  rewrite (dict_lookup_truthy _ _ _ Hmsg).
  cbn [negb py_contains py_getitem py_strip]. rewrite Hmsg.
  cbn [negb py_strip]. rewrite Hblank. reflexivity.
Qed.

(** C4. For a chat request with a message that is not blank, in a session
    whose stored history can be converted: a request is built and sent to
    the client once. When the client returns a success, the stored
    history becomes the old one followed by exactly two entries, the
    user's and then the bot's, the bot's message being the text that the
    client returned, and the reply is the success with that text. When
    the client returns a failure, the session is unchanged and the reply
    is the service error (status 500) with the client's message. *)
Theorem chat_history_integrity
    (d : pydict) (s ts_user ts_bot : string) (w : World) :
  dict_lookup "message" d = Some (PStr s) ->
  strip s <> "" ->
  well_formed_history (stored_history (session w)) = true ->
  let user_message := PStr (strip s) in
  let bot := dict_get "bot_name" (PStr (Config.DEFAULT_BOT_NAME cfg)) d in
  let user := dict_get "user_name" (PStr (Config.DEFAULT_USER_NAME cfg)) d in
  let custom := dict_get "custom_prompt" PNone d in
  let old := default [] (stored_history (session w)) in
  exists (request : ChatRequest) (ok : bool) (response : pyval)
         (error : option string),
    create_chat_request cfg user_message (Some old) bot user custom
    = Return request
    /\ send_message cfg post request w
       = (Return (ok, response, error), posted (request_of cfg request) w)
    /\ chat cfg post (Return (PDict d)) ts_user ts_bot w
       = if ok
         then (Return (reply_success response bot user),
               chatted (request_of cfg request)
                 [ user_entry user user_message ts_user;
                   bot_entry bot response ts_bot ] w)
         else (Return (reply_service_error error),
               posted (request_of cfg request) w).
Proof.
  intros Hmsg Hblank Hwf user_message bot user custom old.
  assert (Hwf' : well_formed_history (Some old) = true).
  { unfold old. by destruct (stored_history (session w)). }
  destruct (create_chat_request_returns cfg user_message (Some old)
              bot user custom Hwf') as (earlier & _ & Hreq).
  match type of Hreq with
  | _ = Return ?r => set (request := r) in Hreq
  end.
  destruct (send_message_returns cfg post request w)
    as (ok & response & error & Hsend & _).
  exists request, ok, response, error. split; [exact Hreq|]. split; [exact Hsend|].
  unfold chat, try_except, bind, lift, ret.
  rewrite (dict_lookup_truthy _ _ _ Hmsg).
  cbn [negb py_contains py_getitem py_strip]. rewrite Hmsg.
  cbn [negb py_strip].
  assert (Htruthy : truthy (PStr (strip s)) = true).
  { cbn. destruct (String.eqb_spec (strip s) ""); done. }
  rewrite Htruthy. cbn [negb py_get].
  unfold session_get_chat_history, deref.
  fold bot user custom user_message.
  subst old. revert Hreq Hsend. generalize request. clear request.
  unfold chatted, posted. cbv beta.
  destruct (stored_history (session w)) as [h|] eqn:Hstored;
    cbn [default from_option id]; rewrite ?Hstored;
    cbn [default from_option id]; intros request -> ->;
    (destruct ok; [|reflexivity]);
    unfold list_append, session_set_chat_history; cbn; rewrite ?Hstored; cbn.
  - rewrite <- app_assoc. reflexivity.
  - reflexivity.
Qed.

End Chat.

(* ===================================================================== *)
(** * Properties of the retry strategy *)
(* ===================================================================== *)

Module TransportFacts.
Import Transport.

Lemma increment_total (retries retries' : Retry) (method : string)
    (why : reason) :
  increment retries method why = inl retries' ->
  0 <= total retries' /\ total retries' = total retries - 1.
Proof.
  unfold increment, is_exhausted. cbn.
  destruct (Z.eqb_spec (total retries - 1) 0) as [Hz|Hnz],
    (Z.ltb_spec (total retries - 1) 0) as [Hneg|Hpos]; cbn;
    destruct why as [status|err]; try destruct (is_read_error err && _);
    intros [= <-]; cbn; lia.
Qed.

(** A run of [urlopen] is covered by a fuel above the retries left. *)
Lemma urlopen_covered (upstream : nat -> wire_outcome) (method : string)
    (fuel : nat) (retries : Retry) (sent : nat) :
  (Z.to_nat (total retries) < fuel)%nat ->
  is_Some (urlopen fuel upstream method retries sent).1.
Proof.
  revert retries sent.
  induction fuel as [|fuel IH]; intros retries sent Hfuel; [lia|].
  cbn -[increment is_retry].
  destruct (upstream sent) as [response has_retry_after|e].
  - destruct (is_retry retries method (status_code response) has_retry_after);
      [|by eexists].
    destruct (increment retries method (ResponseError (status_code response)))
      as [retries'|f] eqn:Hinc.
    + apply IH. apply increment_total in Hinc. lia.
    + destruct (raise_on_status retries); by eexists.
  - destruct (increment retries method (WireError e)) as [retries'|f] eqn:Hinc.
    + apply IH. apply increment_total in Hinc. lia.
    + by eexists.
Qed.

(** [HTTPAdapter.send] always answers: the fuel it gives is enough. *)
Lemma adapter_send_total (describe : failure -> string) (max_retries : Retry)
    (upstream : nat -> wire_outcome) (method : string) :
  is_Some (adapter_send describe max_retries upstream method).1.
Proof.
  unfold adapter_send.
  pose proof (urlopen_covered upstream method (enough_fuel max_retries)
                max_retries 0) as Hcov.
  destruct (urlopen _ _ _ _ _) as [[[response|f]|] n]; cbn in *.
  - by eexists.
  - by eexists.
  - destruct Hcov as [? [=]]. unfold enough_fuel. lia.
Qed.


End TransportFacts.


(* ===================================================================== *)
(** * Properties of the admission controller *)
(* ===================================================================== *)

Module AdmissionFacts.
Import Admission.

Lemma filter_length_bound {A} (f : A -> bool) (l : list A) :
  (length (List.filter f l) <= length l)%nat.
Proof. induction l as [|a l IH]; cbn; [lia|]. destruct (f a); cbn; lia. Qed.

Lemma filter_full {A} (f : A -> bool) (l : list A) :
  length (List.filter f l) = length l -> List.filter f l = l.
Proof.
  induction l as [|a l IH]; cbn; [done|].
  pose proof (filter_length_bound f l).
  destruct (f a); cbn; intros Hlen; [|lia].
  f_equal. apply IH. lia.
Qed.

Lemma prune_keeps (lim : Limits) (now : Z) (ts : list Z) :
  Forall (fun t => now - windowSeconds lim <= t) ts -> prune lim now ts = ts.
Proof.
  unfold prune. induction 1 as [|t ts Ht _ IH]; cbn; [done|].
  destruct (Z.leb_spec (now - windowSeconds lim) t); [|lia]. by rewrite IH.
Qed.

Lemma prune_drops (lim : Limits) (now : Z) (ts : list Z) :
  Forall (fun t => t < now - windowSeconds lim) ts -> prune lim now ts = [].
Proof.
  unfold prune. induction 1 as [|t ts Ht _ IH]; cbn; [done|].
  destruct (Z.leb_spec (now - windowSeconds lim) t); [lia|]. done.
Qed.

Lemma check_bounded (lim : Limits) (now : Z) (ts : list Z) :
  (length ts <= maxRequests lim)%nat ->
  (length (check lim now ts).2 <= maxRequests lim)%nat.
Proof.
  intros Hlen. unfold check.
  pose proof (filter_length_bound
                (fun t => now - windowSeconds lim <=? t) ts) as Hle.
  fold (prune lim now ts) in Hle.
  destruct (Nat.ltb_spec (length (prune lim now ts)) (maxRequests lim)); cbn.
  - rewrite length_app. cbn. lia.
  - lia.
Qed.

Lemma allow_bounded (lim : Limits) (identity : string) (now : Z) (tbl : Table) :
  bounded lim tbl -> bounded lim (allow lim identity now tbl).2.
Proof.
  intros Hb. unfold allow.
  pose proof (check_bounded lim now (default [] (tbl !! identity))) as Hc.
  destruct (check lim now _) as [d ts'] eqn:Hcheck. cbn in *.
  intros i ts. destruct (decide (identity = i)) as [->|Hne].
  - rewrite lookup_insert_eq. intros [= <-]. apply Hc.
    destruct (tbl !! i) as [ts0|] eqn:Hi; cbn; [by eapply Hb|lia].
  - rewrite lookup_insert_ne by done. apply Hb.
Qed.

Lemma run_bounded (lim : Limits) (calls : list (string * Z)) (tbl : Table) :
  bounded lim tbl -> bounded lim (run lim calls tbl).2.
Proof.
  revert tbl. induction calls as [|[identity now] calls IH]; intros tbl Hb;
    cbn; [done|].
  pose proof (allow_bounded lim identity now tbl Hb) as Hb'.
  destruct (allow lim identity now tbl) as [d tbl'].
  specialize (IH tbl' Hb'). by destruct (run lim calls tbl').
Qed.

Lemma reachable_bounded (lim : Limits) (tbl : Table) :
  reachable lim tbl -> bounded lim tbl.
Proof.
  intros [calls <-]. apply run_bounded. intros i ts. by rewrite lookup_empty.
Qed.

(** A rejection leaves the table as it was. *)
Lemma reject_unchanged (lim : Limits) (identity : string) (now : Z)
    (tbl : Table) :
  (0 < maxRequests lim)%nat ->
  bounded lim tbl ->
  (allow lim identity now tbl).1 = false ->
  (allow lim identity now tbl).2 = tbl.
Proof.
  intros Hpos Hb. unfold allow, check.
  pose proof (filter_length_bound
                (fun t => now - windowSeconds lim <=? t)
                (default [] (tbl !! identity))) as Hle.
  fold (prune lim now (default [] (tbl !! identity))) in Hle.
  destruct (Nat.ltb_spec (length (prune lim now (default [] (tbl !! identity))))
              (maxRequests lim)) as [|Hfull]; cbn; [done|].
  intros _. destruct (tbl !! identity) as [ts|] eqn:Hrec; cbn in *; [|lia].
  apply insert_id. rewrite Hrec. f_equal. symmetry.
  apply filter_full. specialize (Hb _ _ Hrec). unfold prune in *. lia.
Qed.

(** The decisions for one identity depend on its own record and its own
    calls only. *)
Lemma run_decisions_of (lim : Limits) (identity : string)
    (calls : list (string * Z)) (tbl : Table) :
  decisions_of identity calls (run lim calls tbl).1
  = (checks lim (times_of identity calls) (default [] (tbl !! identity))).1.
Proof.
  revert tbl. induction calls as [|[i now] calls IH]; intros tbl; cbn; [done|].
  unfold allow. destruct (String.eqb_spec i identity) as [->|Hne].
  - cbn. destruct (check lim now _) as [d ts'].
    specialize (IH (<[identity := ts']> tbl)).
    rewrite lookup_insert_eq in IH. cbn in IH.
    destruct (run lim calls _) as [ds tbl'']. cbn in *.
    destruct (checks lim _ ts') as [ds' ts'']. cbn in *. by rewrite IH.
  - destruct (check lim now _) as [d ts'].
    specialize (IH (<[i := ts']> tbl)).
    rewrite lookup_insert_ne in IH by done.
    destruct (run lim calls _) as [ds tbl'']. cbn in *. done.
Qed.

(** Five checks within a span of 60 seconds, on a record idle for longer
    than the window, are admitted; the sixth is rejected; the check 61
    seconds after the first is admitted. *)
Lemma checks_quota (ts0 : list Z) (lo t1 t2 t3 t4 t5 t6 : Z) :
  Forall (fun t => t < lo - chat_rate_window) ts0 ->
  Forall (fun t => lo <= t <= lo + chat_rate_window) [t1; t2; t3; t4; t5; t6] ->
  (checks chat_limits [t1; t2; t3; t4; t5; t6; t1 + 61] ts0).1
  = [true; true; true; true; true; false; true].
Proof.
  intros Hidle Hspan.
  repeat match goal with
         | H : Forall _ (_ :: _) |- _ => apply Forall_cons in H; destruct H
         end.
  unfold chat_limits, chat_rate_window, chat_rate_limit in *.
  cbn [checks]. unfold check at 1.
  rewrite prune_drops.
  2:{ eapply Forall_impl; [exact Hidle|]. cbn. intros; lia. }
  cbn -[Z.add Z.sub Z.leb].
  repeat (unfold check at 1; rewrite prune_keeps;
          [|repeat constructor; cbn; lia]; cbn -[Z.add Z.sub Z.leb]).
  unfold check, prune. cbn -[Z.add Z.sub Z.leb].
  destruct (Z.leb_spec (t1 + 61 - 60) t1); [lia|].
  repeat (destruct (_ <=? _)); reflexivity.
Qed.

Lemma in_span_app (lim : Limits) (lo : Z) (xs ys : list Z) :
  in_span lim lo (xs ++ ys) = (in_span lim lo xs + in_span lim lo ys)%nat.
Proof. unfold in_span. by rewrite List.filter_app, length_app. Qed.

Lemma in_span_later (lim : Limits) (lo now : Z) (ts : list Z) :
  lo + windowSeconds lim < now ->
  Forall (fun t => now <= t) ts ->
  in_span lim lo ts = 0%nat.
Proof.
  intros Hlate. unfold in_span. induction 1 as [|t ts Ht _ IH]; cbn; [done|].
  destruct (Z.leb_spec t (lo + windowSeconds lim)); [lia|].
  by rewrite andb_false_r.
Qed.

Lemma in_span_prune (lim : Limits) (lo now : Z) (ts : list Z) :
  now <= lo + windowSeconds lim ->
  in_span lim lo (prune lim now ts) = in_span lim lo ts.
Proof.
  intros Hnear. unfold in_span, prune. induction ts as [|t ts IH]; cbn; [done|].
  destruct (Z.leb_spec (now - windowSeconds lim) t),
    (Z.leb_spec lo t), (Z.leb_spec t (lo + windowSeconds lim));
    cbn; try (destruct (Z.leb_spec lo t)); try lia;
    try (destruct (Z.leb_spec t (lo + windowSeconds lim))); cbn; lia.
Qed.

Lemma admitted_later (lim : Limits) (now : Z) (times ts : list Z) :
  Forall (fun t => now <= t) times ->
  Forall (fun t => now <= t) (admitted times (checks lim times ts).1).
Proof.
  intros Hall. revert ts.
  induction Hall as [|t times Ht _ IH]; intros ts; cbn; [constructor|].
  destruct (check lim t ts) as [d ts']. specialize (IH ts').
  destruct (checks lim times ts') as [ds ts'']. cbn in *.
  destruct d; [by constructor|done].
Qed.

(** In a sequence of checks at instants that never go back, the instants
    held by the record and those admitted from then on never put more than
    [maxRequests] in one span of a window. *)
Lemma checks_span_bound (lim : Limits) (times : list Z) :
  StronglySorted Z.le times ->
  forall (ts : list Z) (lo : Z),
    (length ts <= maxRequests lim)%nat ->
    (in_span lim lo (ts ++ admitted times (checks lim times ts).1)
     <= maxRequests lim)%nat.
Proof.
  induction 1 as [|now times _ IH Hnext]; intros ts lo Hlen.
  - cbn. rewrite app_nil_r. unfold in_span.
    pose proof (filter_length_bound
                  (fun t => (lo <=? t) && (t <=? lo + windowSeconds lim)) ts).
    lia.
  - pose proof (check_bounded lim now ts Hlen) as Hlen'.
    pose proof (admitted_later lim now times (check lim now ts).2 Hnext) as Hadm.
    specialize (IH (check lim now ts).2 lo Hlen').
    cbn [checks].
    destruct (check lim now ts) as [d ts'] eqn:Hcheck. cbn [fst snd] in *.
    destruct (checks lim times ts') as [ds ts''] eqn:Hrest. cbn [fst snd] in *.
    assert (Hfuture : Forall (fun t => now <= t)
                        (admitted (now :: times) (d :: ds))).
    { cbn. destruct d; [constructor; [lia|done]|done]. }
    rewrite in_span_app in *.
    destruct (Z.lt_ge_cases (lo + windowSeconds lim) now) as [Hlate|Hnear].
    + rewrite (in_span_later lim lo now _ Hlate Hfuture). unfold in_span.
      pose proof (filter_length_bound
                    (fun t => (lo <=? t) && (t <=? lo + windowSeconds lim)) ts).
      lia.
    + unfold check in Hcheck.
      destruct (Nat.ltb_spec (length (prune lim now ts)) (maxRequests lim));
        injection Hcheck as <- <-; cbn [admitted].
      * rewrite in_span_app, in_span_prune in IH by done.
        change (now :: admitted times ds) with ([now] ++ admitted times ds).
        rewrite in_span_app. lia.
      * rewrite in_span_prune in IH by done. done.
Qed.

Lemma times_of_sorted (identity : string) (calls : list (string * Z)) :
  StronglySorted Z.le calls.*2 ->
  StronglySorted Z.le (times_of identity calls).
Proof.
  induction calls as [|[i now] calls IH]; cbn; [constructor|].
  intros Hs. apply StronglySorted_inv in Hs as [Hs Hall].
  destruct (String.eqb i identity); [|by apply IH].
  constructor; [by apply IH|].
  clear -Hall. induction calls as [|[j t] calls IH]; cbn in *; [constructor|].
  apply Forall_cons in Hall as [? ?].
  destruct (String.eqb j identity); [constructor|]; auto.
Qed.

(** C3. With the quota of the chat operation, 5 requests per window of 60
    seconds: for every identity, in every sequence of admission checks
    (the checks of other identities in between included) in which that
    identity, its record idle for longer than the window, calls six times
    within a span of 60 seconds and then 61 seconds after its first call,
    the first five calls are admitted, the sixth is rejected, and the last
    is admitted again; in every table that a sequence of checks can leave,
    a rejected check leaves every record as it was; and in every sequence
    of checks whose instants never go back, no identity has more than 5
    admitted calls in any span of 60 seconds. *)
Theorem allow_quota (identity : string) (calls : list (string * Z))
    (tbl : Table) (lo t1 t2 t3 t4 t5 t6 : Z) :
  Forall (fun t => t < lo - chat_rate_window) (default [] (tbl !! identity)) ->
  times_of identity calls = [t1; t2; t3; t4; t5; t6; t1 + 61] ->
  Forall (fun t => lo <= t <= lo + chat_rate_window) [t1; t2; t3; t4; t5; t6] ->
  decisions_of identity calls (run chat_limits calls tbl).1
  = [true; true; true; true; true; false; true]
  /\ (forall (tbl' : Table) (identity' : string) (now : Z),
        reachable chat_limits tbl' ->
        (allow chat_limits identity' now tbl').1 = false ->
        (allow chat_limits identity' now tbl').2 = tbl')
  /\ (forall (calls' : list (string * Z)) (identity' : string) (start : Z),
        StronglySorted Z.le calls'.*2 ->
        (in_span chat_limits start
           (admitted (times_of identity' calls')
              (decisions_of identity' calls' (run chat_limits calls' ∅).1))
         <= chat_rate_limit)%nat).
Proof.
  intros Hidle Htimes Hspan. split; [|split].
  - rewrite run_decisions_of, Htimes. by apply (checks_quota _ lo).
  - intros tbl' identity' now Hreach. apply reject_unchanged.
    + cbn. unfold chat_rate_limit. lia.
    + by apply reachable_bounded.
  - intros calls' identity' start Hsorted.
    rewrite run_decisions_of, lookup_empty.
    apply (checks_span_bound chat_limits _
             (times_of_sorted identity' calls' Hsorted) [] start).
    cbn. lia.
Qed.

End AdmissionFacts.

(* ===================================================================== *)
(** * Properties of the configuration *)
(* ===================================================================== *)

Lemma environ_get_override (k v default : string) :
  Config.environ_get {[ k := v ]} k default = v.
Proof. unfold Config.environ_get. by rewrite lookup_singleton_eq. Qed.

Lemma environ_get_default (k default : string) :
  Config.environ_get ∅ k default = default.
Proof. unfold Config.environ_get. by rewrite lookup_empty. Qed.

Lemma create_chat_request_fields (cfg : Config.t)
    (user_message : pyval) (history : option (list pyval))
    (bot user custom : pyval) (r : ChatRequest) :
  create_chat_request cfg user_message history bot user custom = Return r ->
  bot_name r = py_or bot (PStr (Config.DEFAULT_BOT_NAME cfg))
  /\ user_name r = py_or user (PStr (Config.DEFAULT_USER_NAME cfg))
  /\ prompt r = py_or custom (PStr (Config.SAFETY_PROMPT cfg)).
Proof.
  unfold create_chat_request.
  destruct (match history with
            | Some [] | None => _
            | Some (m :: l) => _
            end) as [earlier|e]; [|discriminate].
  intros [= <-]. done.
Qed.

(** C8, as amended. The upstream URL, the auth token, the request timeout,
    the number of retries, the default bot and user names and the safety
    preamble are constants of [Config]: no process environment changes
    them; the quota and the window of the chat rate limit are the literals
    5 and 60 at the decorator. Only values such as [SECRET_KEY] and [HOST]
    are read from the environment. A chat request can replace, for itself,
    the default names and the preamble by its own [bot_name], [user_name]
    and [custom_prompt]. *)
Theorem config_values_fixed :
  ~ overridable Config.CHAI_API_URL
  /\ ~ overridable Config.CHAI_API_TOKEN
  /\ ~ overridable Config.REQUEST_TIMEOUT
  /\ ~ overridable Config.MAX_RETRIES
  /\ ~ overridable Config.DEFAULT_BOT_NAME
  /\ ~ overridable Config.DEFAULT_USER_NAME
  /\ ~ overridable Config.SAFETY_PROMPT
  /\ (forall env, Config.REQUEST_TIMEOUT (Config.load env) = 30
                  /\ Config.MAX_RETRIES (Config.load env) = 3)
  /\ chat_rate_limit = 5%nat /\ chat_rate_window = 60
  /\ overridable Config.SECRET_KEY
  /\ overridable Config.HOST
  /\ forall env user_message history bot user custom r,
       create_chat_request (Config.load env) user_message history
                           bot user custom = Return r ->
       (truthy bot = true -> bot_name r = bot)
       /\ (truthy user = true -> user_name r = user)
       /\ (truthy custom = true -> prompt r = custom).
Proof.
  repeat split;
    try (intros (env1 & env2 & Hne); by apply Hne).
  - exists ∅, {[ "SECRET_KEY" := "s3cret" ]}. cbn.
    rewrite environ_get_override, environ_get_default. discriminate.
  - exists ∅, {[ "HOST" := "0.0.0.0" ]}. cbn.
    rewrite environ_get_override, environ_get_default. discriminate.
  - apply create_chat_request_fields in H as (-> & _ & _).
    unfold py_or. by intros ->.
  - apply create_chat_request_fields in H as (_ & -> & _).
    unfold py_or. by intros ->.
  - apply create_chat_request_fields in H as (_ & _ & ->).
    unfold py_or. by intros ->.
Qed.

(* ===================================================================== *)
(** * The properties on concrete inputs *)
(* ===================================================================== *)



Lemma allow_quota_witness :
  Admission.decisions_of "A" calls0
    (Admission.run Admission.chat_limits calls0 ∅).1
  = [true; true; true; true; true; false; true].
Proof.
  apply (AdmissionFacts.allow_quota "A" calls0 ∅ 100 100 110 120 130 140 160).
  - rewrite lookup_empty. constructor.
  - reflexivity.
  - unfold chat_rate_window. repeat constructor; lia.
Defined.

Lemma chat_history_integrity_witness :
  exists (request : ChatRequest) (ok : bool) (response : pyval)
         (error : option string),
    create_chat_request cfg0 (PStr (strip " how are you? "))
      (Some (default [] (stored_history (session world1))))
      (dict_get "bot_name" (PStr (Config.DEFAULT_BOT_NAME cfg0)) hello_data)
      (dict_get "user_name" (PStr (Config.DEFAULT_USER_NAME cfg0)) hello_data)
      (dict_get "custom_prompt" PNone hello_data)
    = Return request
    /\ send_message cfg0 (fun _ => Return reply_response) request world1
       = (Return (ok, response, error), posted (request_of cfg0 request) world1)
    /\ chat cfg0 (fun _ => Return reply_response) (Return (PDict hello_data))
            "t2" "t3" world1
       = if ok
         then (Return (reply_success response
                         (dict_get "bot_name"
                            (PStr (Config.DEFAULT_BOT_NAME cfg0)) hello_data)
                         (dict_get "user_name"
                            (PStr (Config.DEFAULT_USER_NAME cfg0)) hello_data)),
               chatted (request_of cfg0 request)
                 [ user_entry
                     (dict_get "user_name"
                        (PStr (Config.DEFAULT_USER_NAME cfg0)) hello_data)
                     (PStr (strip " how are you? ")) "t2";
                   bot_entry
                     (dict_get "bot_name"
                        (PStr (Config.DEFAULT_BOT_NAME cfg0)) hello_data)
                     response "t3" ] world1)
         else (Return (reply_service_error error),
               posted (request_of cfg0 request) world1).
Proof.
  apply (chat_history_integrity cfg0 (fun _ => Return reply_response)
           hello_data " how are you? " "t2" "t3" world1).
  - reflexivity.
  - vm_compute. discriminate.
  - reflexivity.
Defined.

Lemma chat_rejects_blank_message_witness :
  chat cfg0 (fun _ => Return reply_response) (Return (PDict blank_data))
       "t2" "t3" world1
  = (Return reply_empty_message, world1).
Proof.
  apply (chat_rejects_blank_message cfg0 (fun _ => Return reply_response)
           blank_data "  " "t2" "t3" world1); reflexivity.
Defined.

Lemma send_message_raw_text_fallback_witness :
  send_message cfg0 (fun _ => Return padded_response) request0 world0
  = (Return (true, PStr "plain reply", None),
     posted (request_of cfg0 request0) world0)
  /\ trim_of (text padded_response) "plain reply".
Proof.
  destruct (send_message_raw_text_fallback cfg0
              (fun _ => Return padded_response)
              request0 world0 padded_response
              (Exc JSONDecodeError "Expecting value: line 1 column 3 (char 2)")
              eq_refl eq_refl eq_refl eq_refl)
    as (t & Hrun & Htrim & _ & -> & _).
  split; [exact Hrun|exact Htrim].
Defined.

(** The body of the specification's example, with nothing to trim. *)
Example plain_reply_run :
  send_message cfg0 (fun _ => Return plain_response) request0 world0
  = (Return (true, PStr "plain reply", None),
     posted (request_of cfg0 request0) world0).
Proof. vm_compute. reflexivity. Qed.

(** C2 as the specification states it, a success carrying reply text,
    does not hold on a response whose [model_output] is [null]: the
    success carries [None]. *)
Lemma send_message_one_outcome_counterexample :
  status_code null_output_response = 200
  /\ json null_output_response = Return (PDict [ ("model_output", PNone) ])
  /\ send_message cfg0 (fun _ => Return null_output_response) request0 world0
     = (Return (true, PNone, None), posted (request_of cfg0 request0) world0)
  /\ ~ (exists t : string, PNone = PStr t).
Proof. repeat split. by intros [t [=]]. Qed.

(** C9 as the specification states it, a success with ["No response"] for
    every valid JSON body without the key, does not hold on a body that is
    a JSON array: [send_message] reports a failure. *)
Lemma send_message_no_model_output_counterexample :
  status_code array_response = 200
  /\ json array_response = Return (PList [])
  /\ send_message cfg0 (fun _ => Return array_response) request0 world0
     = (Return (false, PNone,
                Some "Unexpected error: 'list' object has no attribute 'get'"),
        posted (request_of cfg0 request0) world0)
  /\ (send_message cfg0 (fun _ => Return array_response) request0 world0).1
     <> Return (true, PStr "No response", None).
Proof.
  repeat split. vm_compute. discriminate.
Qed.

Lemma send_message_no_model_output_witness :
  send_message cfg0 (fun _ => Return empty_object_response) request0 world0
  = (Return (true, PStr "No response", None),
     posted (request_of cfg0 request0) world0).
Proof.
  apply (send_message_no_model_output cfg0
           (fun _ => Return empty_object_response)
           request0 world0 empty_object_response []); reflexivity.
Defined.

(** C8 as the specification states it, every configuration value supplied
    from outside, does not hold: the listed values are the same in every
    environment. *)
Lemma config_values_fixed_counterexample :
  ~ (overridable Config.CHAI_API_URL
     /\ overridable Config.CHAI_API_TOKEN
     /\ overridable Config.REQUEST_TIMEOUT
     /\ overridable Config.MAX_RETRIES
     /\ overridable Config.DEFAULT_BOT_NAME
     /\ overridable Config.DEFAULT_USER_NAME
     /\ overridable Config.SAFETY_PROMPT).
Proof. intros ((env1 & env2 & Hne) & _). by apply Hne. Qed.

Lemma create_chat_request_defaults_witness :
  exists (r : ChatRequest) (earlier : list ChatMessage),
    create_chat_request cfg0 (PStr "next")
      (stored_history (session world1)) (PStr "") PNone (PStr "")
    = Return r
    /\ bot_name r = PStr "Assistant"
    /\ user_name r = PStr "User"
    /\ prompt r = PStr (Config.SAFETY_PROMPT cfg0)
    /\ chat_history r
       = earlier ++ [ {| sender := PStr "User"; message := PStr "next" |} ].
Proof.
  destruct (create_chat_request_defaults ∅ (PStr "next")
              (stored_history (session world1)) (PStr "") PNone (PStr "")
              eq_refl)
    as (r & earlier & Hr & Hbot & Huser & Hprompt & _ & _ & _ & _ & _ & _ & _
        & Hhist & _).
  exists r, earlier. rewrite Hhist, (Huser eq_refl).
  repeat split; auto.
Defined.

(** Runs of the handler. *)
Example chat_success_run :
  chat cfg0 (fun _ => Return reply_response) (Return (PDict hello_data))
       "t2" "t3" world0
  = (Return ([ ("success", PBool true);
               ("response", PStr "hi there");
               ("bot_name", PStr "Chai");
               ("user_name", PStr "User") ], 200),
     {| session :=
          {| session_id := Some "s-1";
             stored_history :=
               Some [ PDict [ ("sender", PStr "User");
                              ("message", PStr "how are you?");
                              ("timestamp", PStr "t2") ];
                      PDict [ ("sender", PStr "Chai");
                              ("message", PStr "hi there");
                              ("timestamp", PStr "t3") ] ] |};
        wire :=
          [ request_of cfg0
              {| prompt := PStr (Config.SAFETY_PROMPT cfg0);
                 bot_name := PStr "Chai";
                 user_name := PStr "User";
                 chat_history :=
                   [ {| sender := PStr "User";
                        message := PStr "how are you?" |} ];
                 memory := PStr "" |} ] |}).
Proof. vm_compute. reflexivity. Qed.

Example chat_upstream_404_run :
  chat cfg0
       (fun _ => Return {| status_code := 404; text := "Not Found";
                           json := Raise (Exc JSONDecodeError "") |})
       (Return (PDict hello_data)) "t2" "t3" world1
  = (Return ([ ("success", PBool false);
               ("error",
                PStr "Chat service error: API returned status 404: Not Found") ],
             500),
     posted (request_of cfg0
               {| prompt := PStr (Config.SAFETY_PROMPT cfg0);
                  bot_name := PStr "Chai";
                  user_name := PStr "User";
                  chat_history :=
                    [ {| sender := PStr "User"; message := PStr "hello" |};
                      {| sender := PStr "Assistant";
                         message := PStr "hi there" |};
                      {| sender := PStr "User";
                         message := PStr "how are you?" |} ];
                  memory := PStr "" |}) world1).
Proof. vm_compute. reflexivity. Qed.

Example chat_missing_message_run :
  chat cfg0 (fun _ => Return reply_response)
       (Return (PDict [ ("bot_name", PStr "Chai") ])) "t2" "t3" world1
  = (Return ([ ("success", PBool false);
               ("error", PStr "Missing message in request") ], 400),
     world1).
Proof. vm_compute. reflexivity. Qed.

Example strip_example : strip "  plain reply
" = "plain reply".
Proof. vm_compute. reflexivity. Qed.

Example chat_not_an_object_run :
  chat cfg0 (fun _ => Return reply_response)
       (Return (PList [ PStr "message" ])) "t2" "t3" world1
  = (Return ([ ("success", PBool false);
               ("error", PStr "Internal server error") ], 500),
     world1).
Proof. vm_compute. reflexivity. Qed.

Example chat_timeout_run :
  (chat cfg0 (fun _ => Raise (Exc ReadTimeout "Read timed out. (read timeout=30)"))
        (Return (PDict hello_data)) "t2" "t3" world1).1
  = Return ([ ("success", PBool false);
              ("error", PStr "Chat service error: Request timed out") ], 500).
Proof. vm_compute. reflexivity. Qed.

(** A run of the admission controller on two identities. *)
Example run_calls0 :
  (Admission.run Admission.chat_limits calls0 ∅).1
  = [true; true; true; true; true; true; true; false; true].
Proof. vm_compute. reflexivity. Qed.

Example run_calls0_record :
  (Admission.run Admission.chat_limits calls0 ∅).2 !! "A"
  = Some [110; 120; 130; 140; 161].
Proof. vm_compute. reflexivity. Qed.

(** Exhausted retries on a read timeout surface as a connection failure;
    a status outside the [status_forcelist] is answered at once. *)
Example read_timeouts_run :
  send_message cfg0
    (mounted_post cfg0 describe0
       (fun _ _ => Transport.WError Transport.ReadTimeoutError))
    request0 world0
  = (Return (false, PNone, Some "Failed to connect to CHAI API"),
     posted (request_of cfg0 request0) world0).
Proof. vm_compute. reflexivity. Qed.

Example not_found_run :
  attempts cfg0 describe0
    (fun _ _ => Transport.WResponse
                  {| status_code := 404; text := "Not Found";
                     json := Raise (Exc JSONDecodeError "") |} false)
    (request_of cfg0 request0)
  = 1%nat.
Proof. vm_compute. reflexivity. Qed.

(* ===================================================================== *)
(** * More on the client *)
(* ===================================================================== *)

Section ClientMore.

Variable cfg : Config.t.
Variable post : HttpRequest -> result Response.

(** X1. A success of [send_message] comes only from a response with status
    200: its reply is then the [model_output] of a JSON object (or
    ["No response"]), or the stripped body when the body is not JSON, and
    it carries no error. *)
Theorem send_message_success_inversion
    (request : ChatRequest) (w w' : World) (reply : pyval)
    (error : option string) :
  send_message cfg post request w = (Return (true, reply, error), w') ->
  exists response : Response,
    post (request_of cfg request) = Return response
    /\ status_code response = 200
    /\ error = None
    /\ ((exists d, json response = Return (PDict d)
                   /\ reply = dict_get "model_output" (PStr "No response") d)
        \/ (exists e, json response = Raise e
                      /\ exc_type e = JSONDecodeError
                      /\ reply = PStr (strip (text response)))).
Proof.
  destruct (post (request_of cfg request)) as [response|e] eqn:Hpost.
  - destruct (decide (status_code response = 200)) as [H200|Hne].
    + rewrite (send_message_200 _ _ _ _ _ Hpost H200).
      intros Hrun. exists response. split; [done|]. split; [done|].
      destruct (json response) as [v|e] eqn:Hjson.
      * destruct v; try (by injection Hrun as [=]).
        injection Hrun as <- <- _. split; [done|]. left. eauto.
      * destruct e as [c s]. destruct c; cbn in Hrun;
          try (by injection Hrun as [=]).
        injection Hrun as <- <- _. split; [done|]. right.
        eexists. split; [reflexivity|]. done.
    + rewrite (send_message_not_200 _ _ _ _ _ Hpost Hne). intros [=].
  - rewrite (send_message_raised _ _ _ _ _ Hpost). intros [=].
Qed.

(** X2. When the response has status 200 and its body is a JSON object
    with the key [model_output], the reply of the success is the value
    under that key, whatever it is. *)
Theorem send_message_model_output
    (request : ChatRequest) (w : World) (response : Response)
    (d : pydict) (v : pyval) :
  post (request_of cfg request) = Return response ->
  status_code response = 200 ->
  json response = Return (PDict d) ->
  dict_lookup "model_output" d = Some v ->
  send_message cfg post request w
  = (Return (true, v, None), posted (request_of cfg request) w).
Proof.
  intros Hpost H200 Hjson Hkey.
  rewrite (send_message_200 _ _ _ _ _ Hpost H200), Hjson.
  unfold dict_get. by rewrite Hkey.
Qed.

(** X3. What [post] raises decides the failure, in the order of the
    [except] clauses: every timeout, the connect timeout included, is
    "Request timed out"; another connection error is "Failed to connect to
    CHAI API"; another exception of requests is "Request failed: " and
    its text; anything else is "Unexpected error: " and its text. *)
Theorem send_message_error_kinds
    (request : ChatRequest) (w : World) (e : exc) :
  post (request_of cfg request) = Raise e ->
  send_message cfg post request w
  = (Return (false, PNone,
             Some match exc_type e with
                  | ReadTimeout | ConnectTimeout => "Request timed out"
                  | ConnectionError => "Failed to connect to CHAI API"
                  | RetryError | OtherRequestException =>
                      "Request failed: " +:+ exc_str e
                  | JSONDecodeError | KeyError | TypeError | AttributeError
                  | OtherException => "Unexpected error: " +:+ exc_str e
                  end),
     posted (request_of cfg request) w).
Proof.
  intros Hpost. rewrite (send_message_raised _ _ _ _ _ Hpost).
  destruct e as [c s]. by destruct c.
Qed.

(** X4. A response whose status is not 200 is a failure that carries the
    status and the body, whatever the body is: the JSON of such a response
    is never read, not even a [model_output]. *)
Theorem send_message_status_failure
    (request : ChatRequest) (w : World) (response : Response) :
  post (request_of cfg request) = Return response ->
  status_code response <> 200 ->
  send_message cfg post request w
  = (Return (false, PNone,
             Some ("API returned status " +:+ py_str_int (status_code response)
                   +:+ ": " +:+ text response)),
     posted (request_of cfg request) w).
Proof. apply send_message_not_200. Qed.

(** X5. Every run of [send_message] puts exactly one request on the wire,
    the one built from the configuration and the payload of the chat
    request, and leaves the session alone. *)
Theorem send_message_wire (request : ChatRequest) (w : World) :
  let w' := (send_message cfg post request w).2 in
  session w' = session w
  /\ wire w'
     = wire w
       ++ [ {| req_url := Config.CHAI_API_URL cfg;
               req_headers :=
                 [ ("Authorization", "Bearer " +:+ Config.CHAI_API_TOKEN cfg);
                   ("Content-Type", "application/json") ];
               req_json := to_payload request;
               req_timeout := Config.REQUEST_TIMEOUT cfg |} ].
Proof.
  destruct (send_message_returns cfg post request w)
    as (ok & response & error & Hrun & _).
  cbn zeta. rewrite Hrun. done.
Qed.

End ClientMore.

(** X6. The payload keeps the whole request: two requests with the same
    payload are the same request. *)
Theorem to_payload_injective (r1 r2 : ChatRequest) :
  to_payload r1 = to_payload r2 -> r1 = r2.
Proof.
  destruct r1 as [p1 b1 u1 h1 m1], r2 as [p2 b2 u2 h2 m2].
  unfold to_payload. cbn. intros [= -> -> -> -> Hh]. f_equal.
  revert h2 Hh. induction h1 as [|[s1 t1] h1 IH]; intros [|[s2 t2] h2];
    cbn; try done.
  intros [= -> -> Hh]. f_equal. by apply IH.
Qed.

(* ===================================================================== *)
(** * More on [create_chat_request] *)
(* ===================================================================== *)

Lemma mapM_result_raises {A B} (f : A -> result B) (l : list A) (e : exc) :
  mapM_result f l = Raise e -> exists a, a ∈ l /\ f a = Raise e.
Proof.
  induction l as [|a l IH]; cbn; [done|].
  destruct (f a) as [b|e'] eqn:Hfa.
  - destruct (mapM_result f l) as [bs|e'']; [done|].
    intros [= ->]. destruct IH as (a' & Ha' & Hf); [done|].
    exists a'. split; [by right|done].
  - intros [= ->]. exists a. split; [left|done].
Qed.

Lemma getitem_raises (msg : pyval) (k : string) (e : exc) :
  py_getitem msg k = Raise e ->
  exc_type e = KeyError \/ exc_type e = TypeError.
Proof.
  destruct msg as [| | | | | |d]; cbn; try (intros [= <-]; by right).
  destruct (dict_lookup k d); [done|]. intros [= <-]. by left.
Qed.

Lemma mapM_result_returns {A B} (f : A -> result B) (l : list A) (bs : list B) :
  mapM_result f l = Return bs -> forall a, a ∈ l -> exists b, f a = Return b.
Proof.
  revert bs. induction l as [|a l IH]; intros bs; cbn.
  - intros _ a Ha. by apply elem_of_nil in Ha.
  - destruct (f a) as [b|e] eqn:Hfa; [|done].
    destruct (mapM_result f l) as [bs'|e]; [|done].
    intros _ a' [->|Ha']%elem_of_cons; [by eexists|]. by eapply IH.
Qed.

Lemma getitem_convertible (msg s m : pyval) :
  py_getitem msg "sender" = Return s ->
  py_getitem msg "message" = Return m ->
  convertible msg = true.
Proof.
  destruct msg as [| | | | | |d]; cbn; try done.
  by destruct (dict_lookup "sender" d), (dict_lookup "message" d).
Qed.

(** What [create_chat_request] does, by the history it is given. *)
Lemma create_chat_request_outcome (cfg : Config.t)
    (user_message : pyval) (history : option (list pyval))
    (bot user custom : pyval) :
  match create_chat_request cfg user_message history bot user custom with
  | Return _ => well_formed_history history = true
  | Raise e =>
      well_formed_history history = false
      /\ (exc_type e = KeyError \/ exc_type e = TypeError)
  end.
Proof.
  unfold create_chat_request.
  destruct history as [[|msg l]|]; try done.
  unfold well_formed_history.
  change (default [] (Some (msg :: l))) with (msg :: l).
  match goal with
  | |- context [mapM_result ?g ?xs] =>
      pose proof (mapM_result_returns g xs) as Hret;
      pose proof (mapM_result_raises g xs) as Hraise;
      destruct (mapM_result g xs) as [earlier|e]
  end.
  - apply forallb_forall. intros a Ha%list_elem_of_In.
    destruct (Hret earlier eq_refl a Ha) as [m Hm].
    destruct (py_getitem a "sender") as [s|] eqn:Hs; [|done].
    destruct (py_getitem a "message") as [t|] eqn:Ht; [|done].
    by eapply getitem_convertible.
  - destruct (Hraise e eq_refl) as (a & Ha & Hfa). split.
    + apply not_true_is_false. intros Hall.
      apply list_elem_of_In in Ha.
      apply (proj1 (forallb_forall _ _) Hall) in Ha.
      destruct (convertible_getitem a Ha) as (s & m & Hs & Hm).
      by rewrite Hs, Hm in Hfa.
    + destruct (py_getitem a "sender") as [s|e1] eqn:Hs.
      * destruct (py_getitem a "message") as [t|e2] eqn:Ht; [done|].
        injection Hfa as <-. by eapply getitem_raises.
      * injection Hfa as <-. by eapply getitem_raises.
Qed.

(** X7. [create_chat_request] builds a request exactly when every entry of
    the history is a dict with the keys ['sender'] and ['message'];
    otherwise it raises the [KeyError] or the [TypeError] of the subscript
    that fails, and builds nothing. *)
Theorem create_chat_request_returns_iff (cfg : Config.t)
    (user_message : pyval) (history : option (list pyval))
    (bot user custom : pyval) :
  ((exists r, create_chat_request cfg user_message history bot user custom
              = Return r)
   <-> well_formed_history history = true)
  /\ forall e, create_chat_request cfg user_message history bot user custom
               = Raise e ->
               exc_type e = KeyError \/ exc_type e = TypeError.
Proof.
  pose proof (create_chat_request_outcome cfg user_message history
                bot user custom) as Hout.
  destruct (create_chat_request cfg user_message history bot user custom)
    as [r|e].
  - split; [|done]. split; [done|]. by eexists.
  - destruct Hout as [Hwf Hcls]. split.
    + split; [by intros [r [=]]|]. by rewrite Hwf.
    + by intros e' [= <-].
Qed.

(* ===================================================================== *)
(** * More on the retry strategy *)
(* ===================================================================== *)

Module TransportMore.
Import Transport.






End TransportMore.

Section MountedSession.

Variable env : Config.environ.
Variable describe : Transport.failure -> string.
Variable upstream : HttpRequest -> nat -> Transport.wire_outcome.

Local Abbreviation cfg := (Config.load env).





End MountedSession.

(* ===================================================================== *)
(** * More on the handler [chat] *)
(* ===================================================================== *)

Section ChatMore.

Variable cfg : Config.t.
Variable post : HttpRequest -> result Response.

(** A chat whose message passes the validation: what is left is to build
    the request and to send it. *)
Lemma chat_accepted (d : pydict) (s ts_user ts_bot : string) (w : World) :
  dict_lookup "message" d = Some (PStr s) ->
  strip s <> "" ->
  let bot := dict_get "bot_name" (PStr (Config.DEFAULT_BOT_NAME cfg)) d in
  let user := dict_get "user_name" (PStr (Config.DEFAULT_USER_NAME cfg)) d in
  let custom := dict_get "custom_prompt" PNone d in
  chat cfg post (Return (PDict d)) ts_user ts_bot w
  = match create_chat_request cfg (PStr (strip s))
            (Some (default [] (stored_history (session w))))
            bot user custom with
    | Raise _ => (Return reply_internal_error, w)
    | Return request =>
        match send_message cfg post request w with
        | (Return (true, response, _), _) =>
            (Return (reply_success response bot user),
             chatted (request_of cfg request)
               [ user_entry user (PStr (strip s)) ts_user;
                 bot_entry bot response ts_bot ] w)
        | (Return (false, _, error), _) =>
            (Return (reply_service_error error),
             posted (request_of cfg request) w)
        | (Raise _, w1) => (Return reply_internal_error, w1)
        end
    end.
Proof.
  intros Hmsg Hblank bot user custom.
  unfold chat, try_except, bind, lift, ret.
  rewrite (dict_lookup_truthy _ _ _ Hmsg).
  cbn [negb py_contains py_getitem py_strip]. rewrite Hmsg.
  cbn [negb py_strip].
  assert (Htruthy : truthy (PStr (strip s)) = true).
  { cbn. destruct (String.eqb_spec (strip s) ""); done. }
  rewrite Htruthy. cbn [negb py_get].
  unfold session_get_chat_history, deref.
  fold bot user custom.
  destruct (stored_history (session w)) as [h|] eqn:Hstored;
    cbn [default from_option id]; rewrite ?Hstored;
    cbn [default from_option id];
    (destruct (create_chat_request _ _ _ _ _ _) as [request|e]; [|done]);
    destruct (send_message_returns cfg post request w)
      as (ok & response & error & -> & _);
    (destruct ok; [|done]);
    unfold list_append, session_set_chat_history, chatted, posted; cbn;
    rewrite ?Hstored; cbn.
  - by rewrite <- app_assoc.
  - done.
Qed.

Lemma chat_missing_eval
    (data : pyval) (ts_user ts_bot : string) (w : World) :
  truthy data = false
  \/ (exists d, data = PDict d /\ dict_lookup "message" d = None) ->
  chat cfg post (Return data) ts_user ts_bot w
  = (Return reply_missing_message, w).
Proof.
  intros [Hfalsy|(d & -> & Hkey)]; unfold chat, try_except, bind, lift, ret.
  - by rewrite Hfalsy.
  - destruct (truthy (PDict d)); [|done]. cbn. by rewrite Hkey.
Qed.

Lemma chat_non_string_eval
    (d : pydict) (v : pyval) (ts_user ts_bot : string) (w : World) :
  dict_lookup "message" d = Some v ->
  (forall s, v <> PStr s) ->
  chat cfg post (Return (PDict d)) ts_user ts_bot w
  = (Return reply_internal_error, w).
Proof.
  intros Hmsg Hnot. unfold chat, try_except, bind, lift, ret.
  rewrite (dict_lookup_truthy _ _ _ Hmsg).
  cbn [negb py_contains py_getitem]. rewrite Hmsg. cbn [negb].
  destruct v; try done. by destruct (Hnot s).
Qed.

Lemma chat_blank_eval
    (d : pydict) (s ts_user ts_bot : string) (w : World) :
  dict_lookup "message" d = Some (PStr s) ->
  strip s = "" ->
  chat cfg post (Return (PDict d)) ts_user ts_bot w
  = (Return reply_empty_message, w).
Proof.
  intros Hmsg Hblank.
  unfold chat, try_except, bind, lift, ret.
  rewrite (dict_lookup_truthy _ _ _ Hmsg).
  cbn [negb py_contains py_getitem py_strip]. rewrite Hmsg.
  cbn [negb py_strip]. rewrite Hblank. reflexivity.
Qed.

(** X12. A body that is falsy ([None], an empty object, ...) or an object
    without the key ['message'] is answered with status 400, "Missing
    message in request"; nothing is sent and the session is as before. *)
Theorem chat_missing_message
    (data : pyval) (ts_user ts_bot : string) (w : World) :
  truthy data = false
  \/ (exists d, data = PDict d /\ dict_lookup "message" d = None) ->
  chat cfg post (Return data) ts_user ts_bot w
  = (Return reply_missing_message, w).
Proof. apply chat_missing_eval. Qed.

(** X13. A message that is not a string (a number, [null], a list, an
    object) has no [strip]: the request is answered with status 500,
    "Internal server error"; nothing is sent and the session is as
    before. *)
Theorem chat_non_string_message
    (d : pydict) (v : pyval) (ts_user ts_bot : string) (w : World) :
  dict_lookup "message" d = Some v ->
  (forall s, v <> PStr s) ->
  chat cfg post (Return (PDict d)) ts_user ts_bot w
  = (Return reply_internal_error, w).
Proof. apply chat_non_string_eval. Qed.

(** X14. With a stored history that holds an entry without ['sender'] or
    ['message'], every chat with a valid message is answered with status
    500, "Internal server error", before anything is sent, and the
    session stays as it is. *)
Theorem chat_corrupt_history
    (d : pydict) (s ts_user ts_bot : string) (w : World) :
  dict_lookup "message" d = Some (PStr s) ->
  strip s <> "" ->
  well_formed_history (stored_history (session w)) = false ->
  chat cfg post (Return (PDict d)) ts_user ts_bot w
  = (Return reply_internal_error, w).
Proof.
  intros Hmsg Hblank Hwf. rewrite (chat_accepted d s ts_user ts_bot w Hmsg Hblank).
  match goal with
  | |- context [create_chat_request ?c ?m ?h ?b ?u ?p] =>
      pose proof (create_chat_request_outcome c m h b u p) as Hout;
      destruct (create_chat_request c m h b u p) as [r|e]
  end; [|done].
  destruct (stored_history (session w)); cbn in *; congruence.
Qed.

(** X15. The five outcomes of [chat], whatever the body, the session and
    the upstream: one of the two 400 replies or the 500 "Internal server
    error" with the world as before; the 500 service error after one
    request on the wire, the session as before; or the 200 success after
    one request on the wire, the stored history two entries longer. It
    never raises, never sends twice, and changes the session only with a
    success. *)
Theorem chat_outcomes
    (get_json : result pyval) (ts_user ts_bot : string) (w : World) :
  let out := chat cfg post get_json ts_user ts_bot w in
  out = (Return reply_missing_message, w)
  \/ out = (Return reply_empty_message, w)
  \/ out = (Return reply_internal_error, w)
  \/ (exists request error,
        out = (Return (reply_service_error error),
               posted (request_of cfg request) w))
  \/ (exists request user user_message bot response,
        out = (Return (reply_success response bot user),
               chatted (request_of cfg request)
                 [ user_entry user user_message ts_user;
                   bot_entry bot response ts_bot ] w)).
Proof.
  cbn zeta.
  destruct get_json as [data|e]; [|by right; right; left].
  destruct (truthy data) eqn:Htruthy;
    [|left; apply chat_missing_eval; by left].
  destruct data as [| | | | | |d];
    try (by right; right; left; unfold chat, try_except, bind, lift, ret;
         rewrite Htruthy).
  - unfold chat, try_except, bind, lift, ret. rewrite Htruthy. cbn.
    destruct (str_contains "message" s); [by right; right; left|by left].
  - unfold chat, try_except, bind, lift, ret. rewrite Htruthy. cbn.
    destruct (existsb _ l); [by right; right; left|by left].
  - destruct (dict_lookup "message" d) as [v|] eqn:Hmsg;
      [|left; apply chat_missing_eval; right; by eexists].
    destruct v as [| | | |s| |];
      try (by right; right; left; apply (chat_non_string_eval _ _ _ _ _ Hmsg)).
    destruct (decide (strip s = "")) as [Hblank|Hblank].
    + right; left. by apply (chat_blank_eval d s).
    + rewrite (chat_accepted d s ts_user ts_bot w Hmsg Hblank).
      destruct (create_chat_request _ _ _ _ _ _) as [request|e];
        [|by right; right; left].
      destruct (send_message_returns cfg post request w)
        as (ok & response & error & -> & _).
      destruct ok; right; right; right; [right|left].
      * by eexists _, _, _, _, _.
      * by eexists _, _.
Qed.

(** X16. A chat whose message is a string is answered with "Empty message
    not allowed" exactly when the string has nothing but whitespace, the
    empty string included. *)
Theorem chat_empty_message_iff
    (d : pydict) (s ts_user ts_bot : string) (w : World) :
  dict_lookup "message" d = Some (PStr s) ->
  (chat cfg post (Return (PDict d)) ts_user ts_bot w).1
  = Return reply_empty_message
  <-> all_space s = true.
Proof.
  intros Hmsg. rewrite <- strip_empty. split.
  - intros Hreply. destruct (decide (strip s = "")) as [|Hblank]; [done|].
    exfalso. revert Hreply.
    rewrite (chat_accepted d s ts_user ts_bot w Hmsg Hblank).
    destruct (create_chat_request _ _ _ _ _ _) as [request|e]; [|done].
    destruct (send_message_returns cfg post request w)
      as (ok & response & error & -> & _).
    by destruct ok.
  - intros Hblank. by rewrite (chat_blank_eval d s).
Qed.

Lemma chat_sends
    (d : pydict) (s ts_user ts_bot : string) (w : World) :
  dict_lookup "message" d = Some (PStr s) ->
  strip s <> "" ->
  well_formed_history (stored_history (session w)) = true ->
  exists earlier : list ChatMessage,
    Forall2 converts_to (default [] (stored_history (session w))) earlier
    /\ wire (chat cfg post (Return (PDict d)) ts_user ts_bot w).2
       = wire w ++ [ request_of cfg (chat_request_of cfg d (strip s) earlier) ].
Proof.
  intros Hmsg Hblank Hwf.
  rewrite (chat_accepted d s ts_user ts_bot w Hmsg Hblank).
  assert (Hwf' : well_formed_history
                   (Some (default [] (stored_history (session w)))) = true).
  { by destruct (stored_history (session w)). }
  destruct (create_chat_request_returns cfg (PStr (strip s)) _
              (dict_get "bot_name" (PStr (Config.DEFAULT_BOT_NAME cfg)) d)
              (dict_get "user_name" (PStr (Config.DEFAULT_USER_NAME cfg)) d)
              (dict_get "custom_prompt" PNone d) Hwf')
    as (earlier & Hall & ->).
  exists earlier. split; [exact Hall|].
  match goal with
  | |- context [send_message cfg post ?r w] =>
      destruct (send_message_returns cfg post r w)
        as (ok & response & error & -> & _)
  end.
  by destruct ok.
Qed.

(** X17. What an accepted chat sends: one request, whose payload is the
    stored history, converted, followed by the stripped message under the
    user name, with the names and the prompt of the body, or the defaults
    where the body gives none or a falsy one. *)
Theorem chat_request_sent
    (d : pydict) (s ts_user ts_bot : string) (w : World) :
  dict_lookup "message" d = Some (PStr s) ->
  strip s <> "" ->
  well_formed_history (stored_history (session w)) = true ->
  exists earlier : list ChatMessage,
    Forall2 converts_to (default [] (stored_history (session w))) earlier
    /\ wire (chat cfg post (Return (PDict d)) ts_user ts_bot w).2
       = wire w ++ [ request_of cfg (chat_request_of cfg d (strip s) earlier) ].
Proof. apply chat_sends. Qed.

(** X24. A chat that names no bot, no user and no prompt is sent with the
    values that [get_config] announces: its [bot_name], its [user_name]
    and its [safety_prompt]. *)
Theorem chat_uses_announced_defaults
    (d : pydict) (s ts_user ts_bot : string) (w : World) :
  dict_lookup "message" d = Some (PStr s) ->
  strip s <> "" ->
  well_formed_history (stored_history (session w)) = true ->
  dict_lookup "bot_name" d = None ->
  dict_lookup "user_name" d = None ->
  dict_lookup "custom_prompt" d = None ->
  exists (request : ChatRequest),
    wire (chat cfg post (Return (PDict d)) ts_user ts_bot w).2
    = wire w ++ [ request_of cfg request ]
    /\ dict_lookup "bot_name" (get_config cfg).1 = Some (bot_name request)
    /\ dict_lookup "user_name" (get_config cfg).1 = Some (user_name request)
    /\ dict_lookup "safety_prompt" (get_config cfg).1 = Some (prompt request).
Proof.
  intros Hmsg Hblank Hwf Hbot Huser Hprompt.
  destruct (chat_sends d s ts_user ts_bot w Hmsg Hblank Hwf)
    as (earlier & _ & ->).
  eexists. split; [reflexivity|].
  unfold chat_request_of, dict_get. rewrite Hbot, Huser, Hprompt.
  cbn. unfold py_or.
  by destruct (truthy (PStr (Config.DEFAULT_BOT_NAME cfg))),
    (truthy (PStr (Config.DEFAULT_USER_NAME cfg))).
Qed.

(** X18. From the upstream to the history: when the upstream answers an
    accepted chat with status 200 and a JSON object with [model_output],
    [get_history] then shows the old history followed by the user's entry
    and the bot's entry with that output, and changes nothing. *)
Theorem chat_reply_in_history
    (d dj : pydict) (s ts_user ts_bot : string) (w : World)
    (response : Response) (v : pyval) :
  dict_lookup "message" d = Some (PStr s) ->
  strip s <> "" ->
  well_formed_history (stored_history (session w)) = true ->
  (forall rq, post rq = Return response) ->
  status_code response = 200 ->
  json response = Return (PDict dj) ->
  dict_lookup "model_output" dj = Some v ->
  let w' := (chat cfg post (Return (PDict d)) ts_user ts_bot w).2 in
  get_history w'
  = (Return
       ([ ("success", PBool true);
          ("history",
           PList (default [] (stored_history (session w))
                  ++ [ user_entry
                         (dict_get "user_name"
                            (PStr (Config.DEFAULT_USER_NAME cfg)) d)
                         (PStr (strip s)) ts_user;
                       bot_entry
                         (dict_get "bot_name"
                            (PStr (Config.DEFAULT_BOT_NAME cfg)) d)
                         v ts_bot ]));
          ("session_id", session_id_value (session w)) ], 200),
     w').
Proof.
  intros Hmsg Hblank Hwf Hpost H200 Hjson Hout. cbn zeta.
  rewrite (chat_accepted d s ts_user ts_bot w Hmsg Hblank).
  assert (Hwf' : well_formed_history
                   (Some (default [] (stored_history (session w)))) = true).
  { by destruct (stored_history (session w)). }
  destruct (create_chat_request_returns cfg (PStr (strip s)) _
              (dict_get "bot_name" (PStr (Config.DEFAULT_BOT_NAME cfg)) d)
              (dict_get "user_name" (PStr (Config.DEFAULT_USER_NAME cfg)) d)
              (dict_get "custom_prompt" PNone d) Hwf')
    as (earlier & _ & ->).
  rewrite (send_message_200 cfg post _ w response (Hpost _) H200), Hjson.
  replace (dict_get "model_output" (PStr "No response") dj) with v
    by (unfold dict_get; by rewrite Hout).
  reflexivity.
Qed.

(** X19. After [clear_history], an accepted chat sends the new message
    alone, whatever the session held before, an unusable history
    included. *)
Theorem clear_then_chat
    (d : pydict) (s ts_user ts_bot : string) (w : World) :
  dict_lookup "message" d = Some (PStr s) ->
  strip s <> "" ->
  wire (chat cfg post (Return (PDict d)) ts_user ts_bot (clear_history w).2).2
  = wire w ++ [ request_of cfg (chat_request_of cfg d (strip s) []) ].
Proof.
  intros Hmsg Hblank.
  rewrite (chat_accepted d s ts_user ts_bot _ Hmsg Hblank).
  change (stored_history (session (clear_history w).2)) with (Some (@nil pyval)).
  cbn [default from_option id create_chat_request].
  match goal with
  | |- context [send_message cfg post ?r ?w0] =>
      destruct (send_message_returns cfg post r w0)
        as (ok & response & error & -> & _)
  end.
  by destruct ok.
Qed.

(** X20. [chat] never sets the ['session_id']: only [index] does, and it
    sets the history to the empty list with it. So the first [index]
    after chats in a session without identifier drops what they stored;
    in a session with an identifier, [index] changes nothing. *)
Theorem chat_never_sets_session_id
    (get_json : result pyval) (ts_user ts_bot new_id : string) (w : World) :
  let w' := (chat cfg post get_json ts_user ts_bot w).2 in
  session_id (session w') = session_id (session w)
  /\ (session_id (session w) = None ->
      session (index new_id w').2
      = {| session_id := Some new_id; stored_history := Some [] |})
  /\ (session_id (session w) <> None -> (index new_id w').2 = w').
Proof.
  cbn zeta.
  assert (Hid : session_id (session (chat cfg post get_json ts_user ts_bot w).2)
                = session_id (session w)).
  { by destruct (chat_session cfg post get_json ts_user ts_bot w)
      as [->|(user & um & bot & response & ->)]. }
  split; [exact Hid|]. unfold index. rewrite Hid.
  split; intros Hw; destruct (session_id (session w)); done.
Qed.

End ChatMore.

(* ===================================================================== *)
(** * The session over a sequence of requests *)
(* ===================================================================== *)

Lemma entry_convertible (v : pyval) : is_entry v = true -> convertible v = true.
Proof.
  destruct v as [| | | | | |d]; try done. cbn.
  intros Hkeys%bool_decide_eq_true.
  destruct d as [|[k1 v1] [|[k2 v2] [|[k3 v3] [|? ?]]]]; try done.
  cbn in Hkeys. by injection Hkeys as -> -> ->.
Qed.

Lemma whole_exchanges_even (h : list pyval) :
  whole_exchanges h -> Nat.Even (length h).
Proof.
  induction 1 as [|h u b _ [n Hn] _ _]; [by exists 0%nat|].
  exists (S n). rewrite length_app. cbn. lia.
Qed.

Lemma whole_exchanges_convertible (h : list pyval) :
  whole_exchanges h -> forallb convertible h = true.
Proof.
  induction 1 as [|h u b _ IH Hu Hb]; [done|].
  rewrite forallb_app, IH. cbn.
  by rewrite (entry_convertible u Hu), (entry_convertible b Hb).
Qed.

Lemma handle_whole_exchanges (cfg : Config.t) (c : call) (w : World) :
  whole_exchanges (default [] (stored_history (session w))) ->
  whole_exchanges (default [] (stored_history (session (handle cfg c w)))).
Proof.
  intros Hw. destruct c as [new_id|post get_json ts_user ts_bot| |]; cbn.
  - unfold index. destruct (session_id (session w)); [done|constructor].
  - destruct (chat_session cfg post get_json ts_user ts_bot w)
      as [->|(user & um & bot & response & ->)]; [done|].
    cbn. by constructor.
  - done.
  - constructor.
Qed.

(** X21. Over every sequence of requests to [index], [chat], [get_history]
    and [clear_history], with any upstream, a session that starts with no
    history (or with whole exchanges) holds whole exchanges: an even
    number of entries, each with the keys ['sender'], ['message'] and
    ['timestamp'], so that the next chat can always convert them. *)
Theorem serve_keeps_whole_exchanges (cfg : Config.t) (calls : list call)
    (w : World) :
  whole_exchanges (default [] (stored_history (session w))) ->
  let h := default [] (stored_history (session (serve cfg calls w))) in
  whole_exchanges h
  /\ Nat.Even (length h)
  /\ Forall (fun v => is_entry v = true) h
  /\ well_formed_history (stored_history (session (serve cfg calls w))) = true.
Proof.
  intros Hw. cbn zeta.
  assert (Hserve : whole_exchanges
                     (default [] (stored_history (session (serve cfg calls w))))).
  { unfold serve. revert w Hw.
    induction calls as [|c calls IH]; intros w Hw; cbn; [done|].
    apply IH. by apply handle_whole_exchanges. }
  split; [done|]. split; [by apply whole_exchanges_even|]. split.
  - clear -Hserve. induction Hserve as [|h u b _ IH Hu Hb]; [constructor|].
    apply Forall_app. split; [done|]. by repeat constructor.
  - unfold well_formed_history. by apply whole_exchanges_convertible.
Qed.

(* ===================================================================== *)
(** * The message is stripped *)
(* ===================================================================== *)

Lemma rstrip_idempotent (s : string) : rstrip (rstrip s) = rstrip s.
Proof.
  induction s as [|c s IH]; cbn; [done|].
  destruct (rstrip s) as [|c' r] eqn:Hr.
  - destruct (isspace c) eqn:Hc; cbn; [done|]. by rewrite Hc.
  - change (rstrip (String c (String c' r)))
      with (match rstrip (String c' r) with
            | EmptyString =>
                if isspace c then EmptyString else String c EmptyString
            | r0 => String c r0
            end).
    by rewrite IH.
Qed.

Lemma strip_idempotent (s : string) : strip (strip s) = strip s.
Proof.
  unfold strip. destruct (all_space s) eqn:Hs.
  - by rewrite (lstrip_all_space s Hs).
  - destruct (lstrip_some s Hs) as (c & s' & -> & Hc).
    rewrite (rstrip_head c s' Hc). cbn [lstrip]. rewrite Hc.
    rewrite <- (rstrip_head c s' Hc). apply rstrip_idempotent.
Qed.

(** X22. The whitespace around a message never matters: a chat with the
    message [s] and the same chat with the stripped message have the same
    reply and leave the same world. *)
Theorem chat_ignores_outer_whitespace (cfg : Config.t)
    (post : HttpRequest -> result Response)
    (s ts_user ts_bot : string) (rest : pydict) (w : World) :
  chat cfg post (Return (PDict (("message", PStr s) :: rest))) ts_user ts_bot w
  = chat cfg post (Return (PDict (("message", PStr (strip s)) :: rest)))
         ts_user ts_bot w.
Proof.
  destruct (decide (strip s = "")) as [Hblank|Hblank].
  - rewrite (chat_blank_eval cfg post _ s), (chat_blank_eval cfg post _ (strip s));
      try done.
    by rewrite strip_idempotent.
  - rewrite (chat_accepted cfg post _ s), (chat_accepted cfg post _ (strip s));
      try done.
    + by rewrite strip_idempotent.
    + by rewrite strip_idempotent.
Qed.

(* ===================================================================== *)
(** * The debug flag *)
(* ===================================================================== *)

Lemma ascii_lower_true_letters (c : ascii) :
  (ascii_lower c = "t"%char -> c = "t"%char \/ c = "T"%char)
  /\ (ascii_lower c = "r"%char -> c = "r"%char \/ c = "R"%char)
  /\ (ascii_lower c = "u"%char -> c = "u"%char \/ c = "U"%char)
  /\ (ascii_lower c = "e"%char -> c = "e"%char \/ c = "E"%char).
Proof.
  destruct c as [[] [] [] [] [] [] [] []]; vm_compute;
    repeat split; intros H; try discriminate H; auto.
Qed.

(** X23. [Config.DEBUG] is on when the environment has no [DEBUG], and
    otherwise exactly when its value is "true" in some mix of capitals:
    values such as "1", "yes" or "on" turn it off. *)
Theorem DEBUG_spellings (env : Config.environ) :
  DEBUG env = true
  <-> match env !! "DEBUG" with
      | None => True
      | Some v => v ∈ true_spellings
      end.
Proof.
  unfold DEBUG, Config.environ_get.
  destruct (env !! "DEBUG") as [v|]; [|done].
  rewrite String.eqb_eq, list_elem_of_In. split.
  - destruct v as [|c1 [|c2 [|c3 [|c4 [|c5 v]]]]]; cbn [str_lower];
      try discriminate.
    intros [= H1 H2 H3 H4].
    apply (ascii_lower_true_letters c1) in H1.
    apply (ascii_lower_true_letters c2) in H2.
    apply (ascii_lower_true_letters c3) in H3.
    apply (ascii_lower_true_letters c4) in H4.
    destruct H1 as [-> | ->], H2 as [-> | ->], H3 as [-> | ->],
      H4 as [-> | ->]; cbn; repeat (first [left; reflexivity | right]).
  - cbn. intros Hin.
    repeat (destruct Hin as [<-|Hin]; [by vm_compute|]). done.
Qed.

(* ===================================================================== *)
(** * The further properties on concrete inputs *)
(* ===================================================================== *)

Lemma send_message_success_inversion_witness :
  exists response : Response,
    (fun _ : HttpRequest => Return reply_response) (request_of cfg0 request0)
    = Return response
    /\ status_code response = 200
    /\ @None string = None
    /\ ((exists d, json response = Return (PDict d)
                   /\ PStr "hi there"
                      = dict_get "model_output" (PStr "No response") d)
        \/ (exists e, json response = Raise e
                      /\ exc_type e = JSONDecodeError
                      /\ PStr "hi there" = PStr (strip (text response)))).
Proof.
  apply (send_message_success_inversion cfg0 (fun _ => Return reply_response)
           request0 world0 (posted (request_of cfg0 request0) world0)
           (PStr "hi there") None).
  reflexivity.
Defined.

Lemma send_message_model_output_witness :
  send_message cfg0 (fun _ => Return reply_response) request0 world0
  = (Return (true, PStr "hi there", None),
     posted (request_of cfg0 request0) world0).
Proof.
  apply (send_message_model_output cfg0 (fun _ => Return reply_response)
           request0 world0 reply_response
           [ ("model_output", PStr "hi there") ] (PStr "hi there"));
    reflexivity.
Defined.

Lemma send_message_error_kinds_witness :
  send_message cfg0
    (fun _ => Raise (Exc ConnectTimeout "Connection to host timed out."))
    request0 world0
  = (Return (false, PNone, Some "Request timed out"),
     posted (request_of cfg0 request0) world0).
Proof.
  apply (send_message_error_kinds cfg0
           (fun _ => Raise (Exc ConnectTimeout "Connection to host timed out."))
           request0 world0
           (Exc ConnectTimeout "Connection to host timed out.")).
  reflexivity.
Defined.

Lemma send_message_status_failure_witness :
  send_message cfg0 (fun _ => Return not_found_response) request0 world0
  = (Return (false, PNone, Some "API returned status 404: Not Found"),
     posted (request_of cfg0 request0) world0).
Proof.
  apply (send_message_status_failure cfg0 (fun _ => Return not_found_response)
           request0 world0 not_found_response).
  - reflexivity.
  - vm_compute. discriminate.
Defined.

Lemma to_payload_injective_witness : request0 = request0.
Proof. apply (to_payload_injective request0 request0). reflexivity. Defined.





Lemma chat_missing_message_witness :
  chat cfg0 (fun _ => Return reply_response) (Return (PDict [])) "t2" "t3" world1
  = (Return reply_missing_message, world1).
Proof.
  apply (chat_missing_message cfg0 (fun _ => Return reply_response)
           (PDict []) "t2" "t3" world1).
  left. reflexivity.
Defined.

Lemma chat_non_string_message_witness :
  chat cfg0 (fun _ => Return reply_response) (Return (PDict number_data))
       "t2" "t3" world1
  = (Return reply_internal_error, world1).
Proof.
  apply (chat_non_string_message cfg0 (fun _ => Return reply_response)
           number_data (PInt 5) "t2" "t3" world1).
  - reflexivity.
  - intros s. discriminate.
Defined.

Lemma chat_corrupt_history_witness :
  chat cfg0 (fun _ => Return reply_response) (Return (PDict hello_data))
       "t2" "t3" world_corrupt
  = (Return reply_internal_error, world_corrupt).
Proof.
  apply (chat_corrupt_history cfg0 (fun _ => Return reply_response)
           hello_data " how are you? " "t2" "t3" world_corrupt).
  - reflexivity.
  - vm_compute. discriminate.
  - reflexivity.
Defined.

Lemma chat_empty_message_iff_witness :
  (chat cfg0 (fun _ => Return reply_response) (Return (PDict blank_data))
        "t2" "t3" world1).1
  = Return reply_empty_message
  <-> all_space "  " = true.
Proof.
  apply (chat_empty_message_iff cfg0 (fun _ => Return reply_response)
           blank_data "  " "t2" "t3" world1).
  reflexivity.
Defined.

Lemma chat_request_sent_witness :
  exists earlier : list ChatMessage,
    Forall2 converts_to (default [] (stored_history (session world1))) earlier
    /\ wire (chat cfg0 (fun _ => Return reply_response)
                  (Return (PDict hello_data)) "t2" "t3" world1).2
       = wire world1
         ++ [ request_of cfg0
                (chat_request_of cfg0 hello_data (strip " how are you? ")
                                 earlier) ].
Proof.
  apply (chat_request_sent cfg0 (fun _ => Return reply_response)
           hello_data " how are you? " "t2" "t3" world1).
  - reflexivity.
  - vm_compute. discriminate.
  - reflexivity.
Defined.

Lemma chat_reply_in_history_witness :
  get_history
    (chat cfg0 (fun _ => Return reply_response) (Return (PDict hello_data))
          "t2" "t3" world1).2
  = (Return
       ([ ("success", PBool true);
          ("history",
           PList (default [] (stored_history (session world1))
                  ++ [ user_entry (PStr "User") (PStr "how are you?") "t2";
                       bot_entry (PStr "Chai") (PStr "hi there") "t3" ]));
          ("session_id", PStr "s-1") ], 200),
     (chat cfg0 (fun _ => Return reply_response) (Return (PDict hello_data))
           "t2" "t3" world1).2).
Proof.
  apply (chat_reply_in_history cfg0 (fun _ => Return reply_response)
           hello_data [ ("model_output", PStr "hi there") ]
           " how are you? " "t2" "t3" world1 reply_response (PStr "hi there")).
  - reflexivity.
  - vm_compute. discriminate.
  - reflexivity.
  - intros rq. reflexivity.
  - reflexivity.
  - reflexivity.
  - reflexivity.
Defined.

Lemma clear_then_chat_witness :
  wire (chat cfg0 (fun _ => Return reply_response) (Return (PDict hello_data))
             "t2" "t3" (clear_history world_corrupt).2).2
  = wire world_corrupt
    ++ [ request_of cfg0
           (chat_request_of cfg0 hello_data (strip " how are you? ") []) ].
Proof.
  apply (clear_then_chat cfg0 (fun _ => Return reply_response)
           hello_data " how are you? " "t2" "t3" world_corrupt).
  - reflexivity.
  - vm_compute. discriminate.
Defined.

Lemma serve_keeps_whole_exchanges_witness :
  whole_exchanges
    (default [] (stored_history (session (serve cfg0 calls1 world0))))
  /\ Nat.Even
       (length (default [] (stored_history (session (serve cfg0 calls1 world0)))))
  /\ Forall (fun v => is_entry v = true)
       (default [] (stored_history (session (serve cfg0 calls1 world0))))
  /\ well_formed_history
       (stored_history (session (serve cfg0 calls1 world0))) = true.
Proof.
  apply (serve_keeps_whole_exchanges cfg0 calls1 world0). constructor.
Defined.

(** The sequence [calls1] leaves one exchange, the one after the
    clearing. *)
Example serve_calls1 :
  stored_history (session (serve cfg0 calls1 world0))
  = Some [ user_entry (PStr "User") (PStr "anyone?") "t6";
           bot_entry (PStr "Assistant") (PStr "No response") "t7" ].
Proof. vm_compute. reflexivity. Qed.

Example debug_flag_runs :
  DEBUG ∅ = true
  /\ DEBUG {[ "DEBUG" := "TRUE" ]} = true
  /\ DEBUG {[ "DEBUG" := "1" ]} = false
  /\ DEBUG {[ "DEBUG" := "yes" ]} = false.
Proof. repeat split; vm_compute; reflexivity. Qed.

Lemma chat_uses_announced_defaults_witness :
  exists (request : ChatRequest),
    wire (chat cfg0 (fun _ => Return reply_response)
               (Return (PDict [ ("message", PStr "hello") ]))
               "t2" "t3" world1).2
    = wire world1 ++ [ request_of cfg0 request ]
    /\ dict_lookup "bot_name" (get_config cfg0).1 = Some (bot_name request)
    /\ dict_lookup "user_name" (get_config cfg0).1 = Some (user_name request)
    /\ dict_lookup "safety_prompt" (get_config cfg0).1 = Some (prompt request).
Proof.
  apply (chat_uses_announced_defaults cfg0 (fun _ => Return reply_response)
           [ ("message", PStr "hello") ] "hello" "t2" "t3" world1);
    try reflexivity.
  vm_compute. discriminate.
Defined.
